(** * Task management application: the REST handlers of [backend/server.js]
      and the client-side filter of [src/App.tsx]

    The server keeps one SQLite table [tasks]; every route handler runs one
    or two SQL statements against it.  The table is modelled as the list of
    its rows in rowid order together with the AUTOINCREMENT counter, the
    handlers as functions from a table (and a request) to a response and a
    table.  [CURRENT_TIMESTAMP] is an input of the handlers that stamp rows.

    Text is modelled by [string], one character per code point below 256;
    on that range JavaScript's [trim], [toLowerCase] and [includes] and
    SQLite's [LIKE] are defined exactly as the engines define them. *)

From Stdlib Require Import ZArith NArith Bool List String Ascii Lia.
From Stdlib Require Import Sorting.Sorted Sorting.Permutation.
Import ListNotations.

Local Open Scope string_scope.
Local Open Scope Z_scope.

(** ** JavaScript strings *)

Module JS.

(** WhiteSpace and LineTerminator code points below 256: TAB, LF, VT, FF,
    CR, SP and NBSP.  These are what [String.prototype.trim] strips. *)
Definition isWhiteSpace (c : ascii) : bool :=
  let n := N_of_ascii c in
  (((9 <=? n) && (n <=? 13)) || (n =? 32) || (n =? 160))%N.

Fixpoint trimStart (s : string) : string :=
  match s with
  | EmptyString => EmptyString
  | String c s' => if isWhiteSpace c then trimStart s' else s
  end.

Fixpoint trimEnd (s : string) : string :=
  match s with
  | EmptyString => EmptyString
  | String c s' =>
      match trimEnd s' with
      | EmptyString => if isWhiteSpace c then EmptyString else String c EmptyString
      | t => String c t
      end
  end.

(** [s.trim()] *)
Definition trim (s : string) : string := trimEnd (trimStart s).

(** Simple lower-case mapping of one code point below 256: A-Z, and the
    Latin-1 capitals U+00C0-U+00DE except the multiplication sign U+00D7.
    (Above that range JavaScript has letters whose lower case is an ASCII
    letter, such as U+212A; text of that range is not modelled, and what
    is proved of [toLowerCase] against LIKE is stated for ASCII text.) *)
Definition toLowerChar (c : ascii) : ascii :=
  let n := N_of_ascii c in
  if (((65 <=? n) && (n <=? 90))
      || ((192 <=? n) && (n <=? 222) && negb (n =? 215)))%N
  then ascii_of_N (n + 32) else c.

(** [s.toLowerCase()] *)
Fixpoint toLowerCase (s : string) : string :=
  match s with
  | EmptyString => EmptyString
  | String c s' => String (toLowerChar c) (toLowerCase s')
  end.

(** [s.includes(t)]: [t] occurs in [s] at some position. *)
Fixpoint includes (s t : string) : bool :=
  prefix t s ||
  match s with
  | EmptyString => false
  | String _ s' => includes s' t
  end.

(** Truthiness of a string: every string but the empty one. *)
Definition truthy (s : string) : bool := negb (s =? "")%string.

(** Truthiness of a property that may be missing ([undefined] is falsy). *)
Definition truthy_opt (o : option string) : bool :=
  match o with
  | None => false
  | Some s => truthy s
  end.

(** [a || b] on strings. *)
Definition or_else (a : option string) (b : string) : string :=
  match a with
  | Some s => if truthy s then s else b
  | None => b
  end.

(** [xs.includes(x)] on an array of strings. *)
Definition array_includes (xs : list string) (x : string) : bool :=
  existsb (String.eqb x) xs.

End JS.

(** ** The SQLite table *)

Module SQL.

(** A row of [tasks].  [created_at] and [updated_at] hold
    [CURRENT_TIMESTAMP], a text 'YYYY-MM-DD HH:MM:SS' in UTC whose text
    order is the order of time; it is modelled by the number of seconds it
    denotes. *)
Record Task : Type := mkTask {
  id : Z;
  title : string;
  description : string;
  status : string;
  created_at : Z;
  updated_at : Z
}.

(** The table: its rows in rowid order, and the largest rowid ever handed
    out (the [sqlite_sequence] entry that AUTOINCREMENT maintains). *)
Record Table : Type := mkTable {
  rows : list Task;
  seq : Z
}.

Definition empty : Table := mkTable [] 0.

(** [CHECK (status IN ('pending', 'in progress', 'completed'))] *)
Definition check_status (s : string) : bool :=
  ((s =? "pending") || (s =? "in progress") || (s =? "completed"))%string.

Definition max_rowid (l : list Task) : Z :=
  fold_right (fun r m => Z.max (id r) m) 0 l.

(** The rowid an AUTOINCREMENT insert chooses: one more than the largest
    rowid that ever existed in the table. *)
Definition next_rowid (t : Table) : Z :=
  Z.max (seq t) (max_rowid (rows t)) + 1.

(** [INSERT INTO tasks (title, description, status) VALUES (?, ?, ?)]:
    [None] when the CHECK constraint rejects the row (the statement is
    rolled back), else [this.lastID] and the new table.  Both timestamp
    columns take their default, the current time. *)
Definition insert (t : Table) (ttl desc st : string) (now : Z)
  : option (Z * Table) :=
  if check_status st then
    let i := next_rowid t in
    Some (i, mkTable (rows t ++ [mkTask i ttl desc st now now]) i)
  else None.

(** [SELECT * FROM tasks WHERE id = ?] through [db.get]: the first row. *)
Definition get (t : Table) (i : Z) : option Task :=
  find (fun r => id r =? i) (rows t).

Definition set_row (ttl desc st : string) (now : Z) (r : Task) : Task :=
  mkTask (id r) ttl desc st (created_at r) now.

(** [UPDATE tasks SET title = ?, description = ?, status = ?,
    updated_at = CURRENT_TIMESTAMP WHERE id = ?]: [None] when a row is to
    be changed and the CHECK constraint rejects its new status. *)
Definition update (t : Table) (ttl desc st : string) (now i : Z)
  : option Table :=
  if existsb (fun r => id r =? i) (rows t) && negb (check_status st) then None
  else
    Some (mkTable
            (map (fun r => if id r =? i then set_row ttl desc st now r else r)
                 (rows t))
            (seq t)).

(** [DELETE FROM tasks WHERE id = ?] *)
Definition delete (t : Table) (i : Z) : Table :=
  mkTable (filter (fun r => negb (id r =? i)) (rows t)) (seq t).

(** [sqlite3Tolower]: LIKE folds the case of ASCII letters only. *)
Definition tolower (c : ascii) : ascii :=
  let n := N_of_ascii c in
  if ((65 <=? n) && (n <=? 90))%N then ascii_of_N (n + 32) else c.

(** [patternCompare] with the settings of LIKE (no ESCAPE character): [%]
    matches any run of characters, [_] any one character, every other
    character itself up to the case of ASCII letters. *)
Fixpoint patternCompare (p s : string) : bool :=
  match p with
  | EmptyString => (s =? "")%string
  | String c p' =>
      if (c =? "%")%char then
        (fix star (s : string) : bool :=
           patternCompare p' s ||
           match s with
           | EmptyString => false
           | String _ s' => star s'
           end) s
      else
        match s with
        | EmptyString => false
        | String d s' =>
            ((c =? "_")%char || (tolower c =? tolower d)%char)
            && patternCompare p' s'
        end
  end.

(** A text as a NUL-terminated string: what comes before its first
    U+0000. *)
Fixpoint cstr (s : string) : string :=
  match s with
  | EmptyString => EmptyString
  | String c s' =>
      if (c =? "000")%char then EmptyString else String c (cstr s')
  end.

(** [s LIKE p]: the LIKE function reads its pattern and its text as
    NUL-terminated strings and compares them with [patternCompare]. *)
Definition like (p s : string) : bool :=
  patternCompare (cstr p) (cstr s).

(** [ORDER BY created_at DESC] over the rows that the scan of the table
    yields in rowid order.  Rows with equal keys keep the order of the scan
    (the sorter merges runs without swapping equal keys). *)
Fixpoint insert_desc (r : Task) (l : list Task) : list Task :=
  match l with
  | [] => [r]
  | x :: l' =>
      if created_at x <=? created_at r then r :: x :: l'
      else x :: insert_desc r l'
  end.

Definition order_by_created_at_desc (l : list Task) : list Task :=
  fold_right insert_desc [] l.

End SQL.

Import SQL.

(** ** The route handlers of [backend/server.js] *)

Module Server.

(** [req.body] of POST and PUT: the three properties the handlers read,
    at the type the client sends them ([TaskFormData]: strings), each of
    which may be missing.  What [validateTask] does with a body that holds
    other JSON values is in [Express] below. *)
Record TaskBody : Type := mkBody {
  body_title : option string;
  body_description : option string;
  body_status : option string
}.

(** What a handler sends: [res.status(code).json({success: true, data})],
    where [data] is what [db.get] gave ([None] for [undefined]), or
    [res.status(code).json({error, message})].  The [message] texts are
    left out. *)
Inductive Response : Type :=
| Success (code : Z) (data : option Task)
| Failure (code : Z) (error : string).

Definition statuses : list string := ["pending"; "in progress"; "completed"].

(** [validateTask]: [Some r] when the middleware answers with [r] itself,
    [None] when it calls [next()]. *)
Definition validateTask (body : TaskBody) : option Response :=
  if negb (JS.truthy_opt (body_title body))
     || (match body_title body with
         | Some t => (String.length (JS.trim t) =? 0)%nat
         | None => true
         end)
  then Some (Failure 400 "Validation error")
  else if JS.truthy_opt (body_status body)
          && negb (match body_status body with
                   | Some s => JS.array_includes statuses s
                   | None => false
                   end)
  then Some (Failure 400 "Validation error")
  else None.

(** [title.trim()] once [validateTask] has let the request through. *)
Definition trimmed_title (body : TaskBody) : string :=
  match body_title body with
  | Some t => JS.trim t
  | None => ""
  end.

(** [description?.trim()] *)
Definition trimmed_description (body : TaskBody) : option string :=
  option_map JS.trim (body_description body).

(** The WHERE clause of [GET /tasks]: the [conditions] array with its
    [params] bound, joined by AND. *)
Definition conditions (status search : option string) : list (Task -> bool) :=
  (match status with
   | Some s =>
       if JS.truthy s && negb (s =? "all")%string
       then [fun r => (SQL.status r =? s)%string]
       else []
   | None => []
   end)
  ++
  (match search with
   | Some q =>
       if JS.truthy q
       then [fun r => SQL.like ("%" ++ q ++ "%") (SQL.title r)
                      || SQL.like ("%" ++ q ++ "%") (SQL.description r)]
       else []
   | None => []
   end).

Definition where_ (conds : list (Task -> bool)) (r : Task) : bool :=
  forallb (fun c => c r) conds.

(** [app.get('/tasks')]: the [data] of the response; [count] is its
    length.  [status] and [search] are the query parameters. *)
Definition get_tasks (db : Table) (status search : option string)
  : list Task :=
  SQL.order_by_created_at_desc
    (filter (where_ (conditions status search)) (rows db)).

(** [app.post('/tasks', validateTask, ...)] at time [now].  The INSERT
    fails on the CHECK constraint only and the SELECT that reads the row
    back does not fail: faults of the database itself are left out. *)
Definition post_tasks (db : Table) (body : TaskBody) (now : Z)
  : Response * Table :=
  match validateTask body with
  | Some r => (r, db)
  | None =>
      let status :=
        match body_status body with
        | Some s => s
        | None => "pending"
        end in
      match SQL.insert db (trimmed_title body)
                       (JS.or_else (trimmed_description body) "")
                       status now with
      | None => (Failure 500 "Database error", db)
      | Some (lastID, db') => (Success 201 (SQL.get db' lastID), db')
      end
  end.

(** [app.put('/tasks/:id', validateTask, ...)] at time [now].  The route
    parameter is compared with the INTEGER column [id]; it is modelled by
    the integer it denotes.  The UPDATE fails on the CHECK constraint only
    and the two SELECTs do not fail: faults of the database itself are
    left out. *)
Definition put_tasks (db : Table) (i : Z) (body : TaskBody) (now : Z)
  : Response * Table :=
  match validateTask body with
  | Some r => (r, db)
  | None =>
      match SQL.get db i with
      | None => (Failure 404 "Not found", db)
      | Some existingTask =>
          match SQL.update db (trimmed_title body)
                  (JS.or_else (trimmed_description body)
                              (description existingTask))
                  (JS.or_else (body_status body) (status existingTask))
                  now i with
          | None => (Failure 500 "Database error", db)
          | Some db' => (Success 200 (SQL.get db' i), db')
          end
      end
  end.

(** [app.delete('/tasks/:id', ...)] *)
Definition delete_tasks (db : Table) (i : Z) : Response * Table :=
  match SQL.get db i with
  | None => (Failure 404 "Not found", db)
  | Some existingTask => (Success 200 (Some existingTask), SQL.delete db i)
  end.

End Server.

(** ** The filter effect of [src/App.tsx] *)

Module Client.

(** The [useEffect] that derives [filteredTasks] from [tasks],
    [statusFilter] and [searchTerm]. *)
Definition filteredTasks (tasks : list Task) (statusFilter searchTerm : string)
  : list Task :=
  let filtered := tasks in
  let filtered :=
    if negb (statusFilter =? "all")%string
    then filter (fun task => (status task =? statusFilter)%string) filtered
    else filtered in
  let filtered :=
    if JS.truthy searchTerm
    then filter (fun task =>
                   JS.includes (JS.toLowerCase (title task))
                               (JS.toLowerCase searchTerm)
                   || JS.includes (JS.toLowerCase (description task))
                                  (JS.toLowerCase searchTerm))
                filtered
    else filtered in
  filtered.

End Client.

Import Server.

(** ** [validateTask] on any parsed body *)

Module Express.

(** A property of [req.body] as [express.json()] leaves it.  Of a number
    [validateTask] sees only whether it is 0, of an array or an object
    only that it is one. *)
Inductive value : Type :=
| Undefined
| Null
| Bool (b : bool)
| Number (zero : bool)
| Str (s : string)
| Object.

Definition truthy (v : value) : bool :=
  match v with
  | Undefined => false
  | Null => false
  | Bool b => b
  | Number zero => negb zero
  | Str s => JS.truthy s
  | Object => true
  end.

(** The three properties of [req.body] that [validateTask] and the
    handlers read. *)
Record Body : Type := mkBody {
  req_title : value;
  req_description : value;
  req_status : value
}.

(** How a middleware ends: it answers, it throws, or it calls [next()]. *)
Inductive Outcome : Type :=
| Answered (r : Response)
| Threw
| Next.

(** [!title || title.trim().length === 0]; [None] when [title.trim] is not
    a function and the call throws a TypeError. *)
Definition title_refused (v : value) : option bool :=
  if negb (truthy v) then Some true
  else
    match v with
    | Str t => Some (String.length (JS.trim t) =? 0)%nat
    | _ => None
    end.

(** [status && !['pending', 'in progress', 'completed'].includes(status)] *)
Definition status_refused (v : value) : bool :=
  truthy v
  && negb (match v with
           | Str s => JS.array_includes statuses s
           | _ => false
           end).

(** [validateTask] *)
Definition validateTask (body : Body) : Outcome :=
  match title_refused (req_title body) with
  | None => Threw
  | Some true => Answered (Failure 400 "Validation error")
  | Some false =>
      if status_refused (req_status body)
      then Answered (Failure 400 "Validation error")
      else Next
  end.

(** [app.post('/tasks', validateTask, handler)] and
    [app.put('/tasks/:id', validateTask, handler)]: the handler of the
    route runs only when [validateTask] calls [next()]; what [validateTask]
    throws goes to [handleErrors], which answers 500.  [S] is the state of
    the store. *)
Definition route {S : Type} (handler : S -> Response * S) (body : Body)
           (s : S) : Response * S :=
  match validateTask body with
  | Answered r => (r, s)
  | Threw => (Failure 500 "Internal server error", s)
  | Next => handler s
  end.

Definition of_string (o : option string) : value :=
  match o with
  | Some s => Str s
  | None => Undefined
  end.

(** A body whose properties are strings or missing. *)
Definition of_typed (body : TaskBody) : Body :=
  mkBody (of_string (body_title body)) (of_string (body_description body))
         (of_string (body_status body)).

End Express.

(** ** Requests served one after another *)

Module Api.

(** A request that can change the table, with the time at which the
    server handles it. *)
Inductive Request : Type :=
| POST (body : TaskBody) (now : Z)
| PUT (i : Z) (body : TaskBody) (now : Z)
| DELETE (i : Z).

(** The handler that the route of the request names. *)
Definition serve (db : Table) (q : Request) : Response * Table :=
  match q with
  | POST body now => post_tasks db body now
  | PUT i body now => put_tasks db i body now
  | DELETE i => delete_tasks db i
  end.

(** The table after a sequence of requests, each handled to its end
    before the next one starts. *)
Fixpoint run (db : Table) (qs : list Request) : Table :=
  match qs with
  | [] => db
  | q :: qs' => run (snd (serve db q)) qs'
  end.

(** The time a request stamps rows with, if it stamps any. *)
Definition time_of (q : Request) : option Z :=
  match q with
  | POST _ now => Some now
  | PUT _ _ now => Some now
  | DELETE _ => None
  end.

End Api.

(** ** The state and the event handlers of [src/App.tsx] *)

Module App.

(** [TaskFormData]; at run time [status] is whatever string the form
    holds. *)
Record TaskFormData : Type := mkForm {
  form_title : string;
  form_description : string;
  form_status : string
}.

(** The [useState] cells of [App].  [filteredTasks] is not a field: the
    filter effect recomputes it from the other cells after every change
    (see [filteredTasks] below). *)
Record State : Type := mkState {
  tasks : list Task;
  loading : bool;
  error : option string;
  showModal : bool;
  editingTask : option Task;
  statusFilter : string;
  searchTerm : string;
  formData : TaskFormData
}.

Definition blankForm : TaskFormData := mkForm "" "" "pending".

(** The initial values of the cells. *)
Definition initial : State :=
  mkState [] true None false None "all" "" blankForm.

(** What the filter effect leaves in [filteredTasks]. *)
Definition filteredTasks (st : State) : list Task :=
  Client.filteredTasks (tasks st) (statusFilter st) (searchTerm st).

(** How a [fetch] call ends: with the answer of the server, or rejected
    with an error that carries [message] (server unreachable). *)
Inductive Net : Type :=
| Up
| Down (message : string).

(** [response.ok]: the status code is in 200..299. *)
Definition ok (r : Response) : bool :=
  match r with
  | Success code _ => (200 <=? code) && (code <=? 299)
  | Failure code _ => (200 <=? code) && (code <=? 299)
  end.

Definition setError (st : State) (m : string) : State :=
  mkState (tasks st) (loading st) (Some m) (showModal st) (editingTask st)
          (statusFilter st) (searchTerm st) (formData st).

(** [fetchTasks]: GET /tasks without parameters.  The server answers 200
    with the listing; a rejected fetch ends in the [catch] branch. *)
Definition fetchTasks (net : Net) (db : Table) (st : State) : State :=
  match net with
  | Up =>
      mkState (get_tasks db None None) false None (showModal st)
              (editingTask st) (statusFilter st) (searchTerm st) (formData st)
  | Down m =>
      mkState [] false (Some m) (showModal st)
              (editingTask st) (statusFilter st) (searchTerm st) (formData st)
  end.

(** [openCreateModal] *)
Definition openCreateModal (st : State) : State :=
  mkState (tasks st) (loading st) (error st) true None
          (statusFilter st) (searchTerm st) blankForm.

(** [openEditModal(task)] *)
Definition openEditModal (task : Task) (st : State) : State :=
  mkState (tasks st) (loading st) (error st) true (Some task)
          (statusFilter st) (searchTerm st)
          (mkForm (title task) (description task) (status task)).

(** [closeModal] *)
Definition closeModal (st : State) : State :=
  mkState (tasks st) (loading st) (error st) false None
          (statusFilter st) (searchTerm st) blankForm.

(** [JSON.stringify(formData)] as the server reads it. *)
Definition body_of (f : TaskFormData) : TaskBody :=
  mkBody (Some (form_title f)) (Some (form_description f))
         (Some (form_status f)).

(** [saveTask] at server time [now]: PUT when a task is being edited,
    POST otherwise.  [net] is how the save request ends, [refetch] how the
    request of the [fetchTasks] that follows a success ends, [message] the
    [message] property of the answer when the server refuses. *)
Definition saveTask (net refetch : Net) (message : option string) (now : Z)
           (db : Table) (st : State) : State * Table :=
  match net with
  | Down m => (setError st m, db)
  | Up =>
      let (response, db') :=
        match editingTask st with
        | Some task => put_tasks db (id task) (body_of (formData st)) now
        | None => post_tasks db (body_of (formData st)) now
        end in
      if ok response
      then (closeModal (fetchTasks refetch db' st), db')
      else (setError st (JS.or_else message "Failed to save task"), db')
  end.

(** [deleteTask(id)]; [confirmed] is the answer to [window.confirm]. *)
Definition deleteTask (confirmed : bool) (net refetch : Net) (i : Z)
           (db : Table) (st : State) : State * Table :=
  if negb confirmed then (st, db)
  else
    match net with
    | Down m => (setError st m, db)
    | Up =>
        let (response, db') := delete_tasks db i in
        if ok response
        then (fetchTasks refetch db' st, db')
        else (setError st "Failed to delete task", db')
    end.

End App.

(** * Vocabulary of the statements *)

(** ** Requests *)

(** The title is missing, empty or made of white space only. *)
Definition blank_title (body : TaskBody) : Prop :=
  match body_title body with
  | Some t => JS.trim t = ""
  | None => True
  end.

(** A status is supplied, is not the empty string, and is none of the
    three statuses. *)
Definition bad_status (body : TaskBody) : Prop :=
  exists s, body_status body = Some s /\ s <> "" /\ SQL.check_status s = false.

(** What [status || existing] and the CHECK constraint let through. *)
Definition passable_status (body : TaskBody) : Prop :=
  match body_status body with
  | Some s => s = "" \/ SQL.check_status s = true
  | None => True
  end.

(** The status that POST binds: the destructuring default applies to a
    missing property only. *)
Definition post_status (body : TaskBody) : string :=
  match body_status body with
  | Some s => s
  | None => "pending"
  end.

(** The row that a POST inserts. *)
Definition post_row (db : Table) (body : TaskBody) (now : Z) : Task :=
  mkTask (SQL.next_rowid db) (trimmed_title body)
         (JS.or_else (trimmed_description body) "")
         (post_status body) now now.

(** The row that a PUT leaves in place of [old]. *)
Definition put_row (old : Task) (body : TaskBody) (now : Z) : Task :=
  SQL.set_row (trimmed_title body)
              (JS.or_else (trimmed_description body) (description old))
              (JS.or_else (body_status body) (status old))
              now old.

(** The title of a parsed body is falsy (missing, null, false, 0 or the
    empty string) or a string of white space only. *)
Definition no_title (body : Express.Body) : Prop :=
  Express.truthy (Express.req_title body) = false \/
  exists t, Express.req_title body = Express.Str t /\ JS.trim t = "".

(** The title of a parsed body is a string, and its status is truthy (a
    non-empty string, true, a number other than 0, an array or an object)
    and not one of the three statuses. *)
Definition unknown_status (body : Express.Body) : Prop :=
  (exists t, Express.req_title body = Express.Str t) /\
  Express.truthy (Express.req_status body) = true /\
  forall s, Express.req_status body = Express.Str s ->
            SQL.check_status s = false.

(** ** Listings *)

(** [x] may stand before [y] in a listing: it is not older. *)
Definition not_older (x y : Task) : Prop := created_at y <= created_at x.

(** [x] comes somewhere before [y] in [l]. *)
Definition before (x y : Task) (l : list Task) : Prop :=
  exists l1 l2 l3, l = (l1 ++ x :: l2 ++ y :: l3)%list.

(** The status parameter lets row [x] through. *)
Definition status_selects (st : option string) (x : Task) : Prop :=
  match st with
  | Some s => s = "" \/ s = "all" \/ status x = s
  | None => True
  end.

(** The search parameter lets row [x] through. *)
Definition search_selects (se : option string) (x : Task) : Prop :=
  match se with
  | Some q =>
      q = "" \/
      SQL.like ("%" ++ q ++ "%") (title x) = true \/
      SQL.like ("%" ++ q ++ "%") (description x) = true
  | None => True
  end.

(** What the schema keeps true of the table: ids are distinct, every
    status passes the CHECK constraint; and what the handlers add: no title
    is empty. *)
Definition consistent (db : Table) : Prop :=
  NoDup (map id (rows db)) /\
  Forall (fun r => SQL.check_status (status r) = true /\ title r <> "")
         (rows db).

(** ** Search terms *)

(** [s] with the case of its ASCII letters folded, as LIKE compares it. *)
Fixpoint lower (s : string) : string :=
  match s with
  | EmptyString => EmptyString
  | String c s' => String (SQL.tolower c) (lower s')
  end.

(** The search term holds neither of the LIKE wildcards. *)
Fixpoint no_wildcard (q : string) : bool :=
  match q with
  | EmptyString => true
  | String c q' =>
      negb (c =? "%")%char && negb (c =? "_")%char && no_wildcard q'
  end.

(** Every character of [s] is an ASCII character. *)
Fixpoint ascii_only (s : string) : bool :=
  match s with
  | EmptyString => true
  | String c s' => (N_of_ascii c <? 128)%N && ascii_only s'
  end.

(** The text holds no U+0000. *)
Fixpoint no_nul (s : string) : bool :=
  match s with
  | EmptyString => true
  | String c s' => negb (c =? "000")%char && no_nul s'
  end.

(** ASCII text without U+0000. *)
Definition plain_text (s : string) : bool := ascii_only s && no_nul s.

(** Title and description of the task are ASCII text without U+0000. *)
Definition plain_task (x : Task) : Prop :=
  plain_text (title x) = true /\ plain_text (description x) = true.

(** The search term, if there is one, holds no wildcard and no U+0000. *)
Definition plain_search (se : option string) : Prop :=
  match se with
  | Some q => no_wildcard q = true /\ no_nul q = true
  | None => True
  end.

(** The search term occurs in the title or in the description of [x],
    each read up to its first U+0000, up to the case of ASCII letters. *)
Definition search_finds (se : option string) (x : Task) : Prop :=
  match se with
  | Some q =>
      q = "" \/
      JS.includes (lower (SQL.cstr (title x))) (lower q) = true \/
      JS.includes (lower (SQL.cstr (description x))) (lower q) = true
  | None => True
  end.

(** The two tests of the filter effect, as one. *)
Definition client_keeps (statusFilter searchTerm : string) (task : Task)
  : bool :=
  (if negb (statusFilter =? "all")%string
   then (status task =? statusFilter)%string else true)
  && (if JS.truthy searchTerm
      then JS.includes (JS.toLowerCase (title task))
                       (JS.toLowerCase searchTerm)
           || JS.includes (JS.toLowerCase (description task))
                          (JS.toLowerCase searchTerm)
      else true).

(** ** Sample tables *)

(** A table holding one task. *)
Definition one_task : Table :=
  mkTable [mkTask 1 "X" "old" "completed" 10 10] 1.

(** Two tasks, to watch the one that an update does not name. *)
Definition two_tasks : Table :=
  mkTable [mkTask 1 "X" "old" "completed" 10 10;
           mkTask 2 "Z" "" "pending" 11 11] 2.

(** Three tasks to search. *)
Definition milk_tasks : Table :=
  mkTable [mkTask 1 "Buy MILK" "" "pending" 10 10;
           mkTask 2 "Walk the dog" "then get Milk" "completed" 11 11;
           mkTask 3 "Read" "a silk road history" "pending" 12 12] 3.

(** ** Tables that the handlers made *)

(** What holds of every table that the handlers built up from the empty
    one: rows are in the order of their ids, which are positive and not
    above the AUTOINCREMENT counter; every status passes the CHECK
    constraint; titles are not empty; titles and descriptions carry no
    white space at either end. *)
Definition kept (db : Table) : Prop :=
  StronglySorted (fun x y => id x < id y) (rows db) /\
  Forall (fun r =>
            0 < id r <= seq db /\
            SQL.check_status (status r) = true /\
            title r <> "" /\
            JS.trim (title r) = title r /\
            JS.trim (description r) = description r)
         (rows db).

(** No row was updated before it was created, and none after time [t]. *)
Definition stamped (t : Z) (db : Table) : Prop :=
  Forall (fun r => created_at r <= updated_at r <= t) (rows db).

(** The requests come at times that do not go back from [t]. *)
Fixpoint ticking (t : Z) (qs : list Api.Request) : Prop :=
  match qs with
  | [] => True
  | q :: qs' =>
      match Api.time_of q with
      | Some n => t <= n /\ ticking n qs'
      | None => ticking t qs'
      end
  end.

(** The search term is made of [%] only. *)
Fixpoint only_percent (q : string) : bool :=
  match q with
  | EmptyString => true
  | String c q' => (c =? "%")%char && only_percent q'
  end.

(** * Properties *)

(** ** Strings *)

Section Strings.

Lemma length_zero_iff (s : string) : (String.length s =? 0)%nat = true <-> s = "".
Proof.
  destruct s; simpl; split; intro H; try reflexivity; discriminate.
Qed.

Lemma truthy_true (s : string) : JS.truthy s = true <-> s <> "".
Proof.
  unfold JS.truthy. rewrite negb_true_iff. apply String.eqb_neq.
Qed.

(** [a || b] keeps a truthy [a]. *)
Lemma or_else_truthy (s d : string) : s <> "" -> JS.or_else (Some s) d = s.
Proof.
  intro H. unfold JS.or_else. apply truthy_true in H. now rewrite H.
Qed.

(** [x || ''] of a string is that string. *)
Lemma or_else_default_empty (s : string) : JS.or_else (Some s) "" = s.
Proof.
  destruct s; reflexivity.
Qed.

Lemma array_includes_statuses (s : string) :
  JS.array_includes statuses s = SQL.check_status s.
Proof.
  unfold JS.array_includes, statuses, SQL.check_status. simpl.
  rewrite orb_false_r. apply orb_assoc.
Qed.

End Strings.

(** ** Validation *)

Section Validation.

Lemma validateTask_blank_title (body : TaskBody) :
  blank_title body -> validateTask body = Some (Failure 400 "Validation error").
Proof.
  unfold blank_title, validateTask. destruct (body_title body) as [t|].
  - intro H. rewrite H. simpl. now rewrite orb_true_r.
  - reflexivity.
Qed.

Lemma validateTask_bad_status (body : TaskBody) :
  bad_status body -> validateTask body = Some (Failure 400 "Validation error").
Proof.
  intros (s & Hs & Hne & Hck). unfold validateTask.
  destruct (negb _ || _); [reflexivity|].
  rewrite Hs. cbn [JS.truthy_opt]. apply truthy_true in Hne. rewrite Hne.
  rewrite array_includes_statuses, Hck. reflexivity.
Qed.

Lemma validateTask_passes (body : TaskBody) (t : string) :
  body_title body = Some t -> JS.trim t <> "" -> passable_status body ->
  validateTask body = None.
Proof.
  intros Ht Hne Hs. unfold validateTask. rewrite Ht. cbn [JS.truthy_opt].
  assert (Htr : JS.truthy t = true).
  { apply truthy_true. intros ->. now apply Hne. }
  rewrite Htr. cbn [negb orb].
  destruct (String.length (JS.trim t) =? 0)%nat eqn:E.
  { apply length_zero_iff in E. contradiction. }
  unfold passable_status in Hs. destruct (body_status body) as [s|]; [|reflexivity].
  cbn [JS.truthy_opt]. rewrite array_includes_statuses.
  destruct Hs as [-> | ->]; [reflexivity|]. now rewrite andb_false_r.
Qed.

Lemma validateTask_None (body : TaskBody) :
  validateTask body = None ->
  (exists t, body_title body = Some t /\ JS.trim t <> "") /\ passable_status body.
Proof.
  unfold validateTask, passable_status.
  destruct (body_title body) as [t|]; cbn [JS.truthy_opt negb orb]; [|discriminate].
  destruct (negb (JS.truthy t) || (String.length (JS.trim t) =? 0)%nat) eqn:E;
    [discriminate|].
  apply orb_false_iff in E. destruct E as [_ E].
  destruct (body_status body) as [s|]; cbn [JS.truthy_opt].
  - rewrite array_includes_statuses.
    destruct (JS.truthy s) eqn:Hs; simpl.
    + destruct (SQL.check_status s); simpl; [|discriminate].
      intros _. split; [|now right]. exists t. split; [reflexivity|].
      intro H. rewrite H in E. discriminate.
    + intros _. split.
      * exists t. split; [reflexivity|]. intro H. rewrite H in E. discriminate.
      * left. unfold JS.truthy in Hs. apply negb_false_iff in Hs.
        now apply String.eqb_eq.
  - intros _. split; [|exact I]. exists t. split; [reflexivity|].
    intro H. rewrite H in E. discriminate.
Qed.

End Validation.

(** ** The table *)

Section Store.

Lemma max_rowid_ge (l : list Task) (r : Task) :
  In r l -> id r <= SQL.max_rowid l.
Proof.
  induction l as [|x l IH]; simpl; [tauto|].
  intros [-> | H]; [lia|]. specialize (IH H). lia.
Qed.

(** AUTOINCREMENT hands out a rowid above every rowid in the table. *)
Lemma next_rowid_fresh (t : Table) (r : Task) :
  In r (rows t) -> id r < SQL.next_rowid t.
Proof.
  intro H. apply max_rowid_ge in H. unfold SQL.next_rowid. lia.
Qed.

Lemma next_rowid_above_seq (t : Table) : seq t < SQL.next_rowid t.
Proof. unfold SQL.next_rowid. lia. Qed.

Lemma get_Some (t : Table) (i : Z) (r : Task) :
  SQL.get t i = Some r -> In r (rows t) /\ id r = i.
Proof.
  unfold SQL.get. intro H. apply find_some in H. destruct H as [H1 H2].
  split; [assumption|]. now apply Z.eqb_eq.
Qed.

Lemma get_exists (t : Table) (i : Z) (r : Task) :
  SQL.get t i = Some r -> existsb (fun x => id x =? i) (rows t) = true.
Proof.
  intro H. apply get_Some in H. destruct H as [H1 H2].
  apply existsb_exists. exists r. split; [assumption|]. now apply Z.eqb_eq.
Qed.

Lemma find_app_fresh (l : list Task) (r : Task) (i : Z) :
  (forall x, In x l -> id x <> i) -> id r = i ->
  find (fun x => id x =? i) (l ++ [r]) = Some r.
Proof.
  intros Hl Hr. induction l as [|x l IH]; simpl.
  - apply Z.eqb_eq in Hr. now rewrite Hr.
  - destruct (id x =? i) eqn:E.
    + apply Z.eqb_eq in E. exfalso. apply (Hl x); [now left | exact E].
    + apply IH. intros y Hy. apply Hl. now right.
Qed.

(** The row read back after an insert is the row inserted. *)
Lemma get_insert (t t' : Table) (ttl desc st : string) (now i : Z) :
  SQL.insert t ttl desc st now = Some (i, t') ->
  i = SQL.next_rowid t /\
  SQL.check_status st = true /\
  t' = mkTable (rows t ++ [mkTask i ttl desc st now now]) i /\
  SQL.get t' i = Some (mkTask i ttl desc st now now).
Proof.
  unfold SQL.insert. destruct (SQL.check_status st); [|discriminate].
  intro H. injection H as <- <-. repeat split.
  unfold SQL.get. simpl. apply find_app_fresh; [|reflexivity].
  intros x Hx. apply next_rowid_fresh in Hx. lia.
Qed.

Lemma find_map_update (l : list Task) (i : Z) (f : Task -> Task) (r : Task) :
  (forall x, id (f x) = id x) ->
  find (fun x => id x =? i) l = Some r ->
  find (fun x => id x =? i) (map (fun x => if id x =? i then f x else x) l)
  = Some (f r).
Proof.
  intros Hf. induction l as [|x l IH]; simpl; [discriminate|].
  destruct (id x =? i) eqn:E.
  - intro H. injection H as <-. simpl. rewrite Hf, E. reflexivity.
  - intro H. simpl. rewrite E. now apply IH.
Qed.

(** The row read back after an update is the old row with the four
    columns of the SET clause replaced. *)
Lemma get_update (t t' : Table) (ttl desc st : string) (now i : Z) (r : Task) :
  SQL.get t i = Some r ->
  SQL.update t ttl desc st now i = Some t' ->
  SQL.check_status st = true /\
  t' = mkTable (map (fun x => if id x =? i
                              then SQL.set_row ttl desc st now x else x)
                    (rows t)) (seq t) /\
  SQL.get t' i = Some (SQL.set_row ttl desc st now r).
Proof.
  intros Hg. unfold SQL.update. rewrite (get_exists _ _ _ Hg). simpl.
  destruct (SQL.check_status st); simpl; [|discriminate].
  intro H. injection H as <-. repeat split.
  unfold SQL.get. simpl. now apply find_map_update.
Qed.

Lemma update_ok (t : Table) (ttl desc st : string) (now i : Z) :
  SQL.check_status st = true ->
  SQL.update t ttl desc st now i
  = Some (mkTable (map (fun x => if id x =? i
                                 then SQL.set_row ttl desc st now x else x)
                       (rows t)) (seq t)).
Proof.
  intro H. unfold SQL.update. rewrite H, andb_false_r. reflexivity.
Qed.

Lemma get_delete (t : Table) (i : Z) : SQL.get (SQL.delete t i) i = None.
Proof.
  unfold SQL.get. simpl.
  destruct (find _ _) as [r|] eqn:E; [|reflexivity].
  apply find_some in E. destruct E as [E1 E2].
  apply filter_In in E1. destruct E1 as [_ E1]. rewrite E2 in E1. discriminate.
Qed.

Lemma filter_fresh (l : list Task) (i : Z) :
  (forall x, In x l -> id x <> i) ->
  filter (fun x => negb (id x =? i)) l = l.
Proof.
  intro Hl. induction l as [|x l IH]; simpl; [reflexivity|].
  assert (E : (id x =? i) = false) by (apply Z.eqb_neq, Hl; now left).
  rewrite E. simpl. f_equal. apply IH. intros y Hy. apply Hl. now right.
Qed.

Lemma filter_app_fresh (l : list Task) (r : Task) (i : Z) :
  (forall x, In x l -> id x <> i) -> id r = i ->
  filter (fun x => negb (id x =? i)) (l ++ [r]) = l.
Proof.
  intros Hl Hr. induction l as [|x l IH]; simpl.
  - apply Z.eqb_eq in Hr. now rewrite Hr.
  - assert (E : (id x =? i) = false) by (apply Z.eqb_neq, Hl; now left).
    rewrite E. simpl. f_equal. apply IH. intros y Hy. apply Hl. now right.
Qed.

Lemma map_update_fresh (l : list Task) (i : Z) (f : Task -> Task) :
  (forall x, In x l -> id x <> i) ->
  map (fun x => if id x =? i then f x else x) l = l.
Proof.
  intro Hl. induction l as [|x l IH]; simpl; [reflexivity|].
  assert (E : (id x =? i) = false) by (apply Z.eqb_neq, Hl; now left).
  rewrite E. f_equal. apply IH. intros y Hy. apply Hl. now right.
Qed.

(** Deleting one of pairwise distinct rowids removes exactly one row. *)
Lemma delete_length (l : list Task) (i : Z) (r : Task) :
  NoDup (map id l) -> In r l -> id r = i ->
  List.length l = S (List.length (filter (fun x => negb (id x =? i)) l)).
Proof.
  induction l as [|x l IH]; simpl; [tauto|].
  intros Hnd Hin Hr. inversion Hnd as [|? ? Hx Hnd']; subst.
  destruct Hin as [-> | Hin].
  - rewrite Z.eqb_refl. simpl. f_equal.
    assert (E : filter (fun x => negb (id x =? id r)) l = l).
    { apply filter_fresh. intros y Hy H. apply Hx. rewrite <- H.
      now apply in_map. }
    now rewrite E.
  - assert (E : (id x =? id r) = false).
    { apply Z.eqb_neq. intro H. apply Hx. rewrite H. now apply in_map. }
    rewrite E. simpl. f_equal. now apply IH.
Qed.

End Store.

(** ** The handlers, run *)

Section Handlers.

Lemma post_tasks_run (db : Table) (body : TaskBody) (now : Z) :
  validateTask body = None ->
  SQL.check_status (post_status body) = true ->
  post_tasks db body now
  = (Success 201 (Some (post_row db body now)),
     mkTable (rows db ++ [post_row db body now]) (SQL.next_rowid db)).
Proof.
  intros Hv Hc. unfold post_tasks. rewrite Hv. fold (post_status body).
  destruct (SQL.insert _ _ _ _ _) as [[i t']|] eqn:E.
  - apply get_insert in E. destruct E as (-> & _ & -> & ->). reflexivity.
  - unfold SQL.insert in E. rewrite Hc in E. discriminate.
Qed.

Lemma post_tasks_rejected (db : Table) (body : TaskBody) (now : Z) :
  validateTask body = None ->
  SQL.check_status (post_status body) = false ->
  post_tasks db body now = (Failure 500 "Database error", db).
Proof.
  intros Hv Hc. unfold post_tasks. rewrite Hv. fold (post_status body).
  unfold SQL.insert. rewrite Hc. reflexivity.
Qed.

Lemma post_tasks_inv (db db' : Table) (body : TaskBody) (now code : Z)
      (data : option Task) :
  post_tasks db body now = (Success code data, db') ->
  validateTask body = None /\
  SQL.check_status (post_status body) = true /\
  code = 201 /\
  data = Some (post_row db body now) /\
  db' = mkTable (rows db ++ [post_row db body now]) (SQL.next_rowid db).
Proof.
  intro H. destruct (validateTask body) as [r|] eqn:Hv.
  - unfold post_tasks in H. rewrite Hv in H.
    unfold validateTask in Hv.
    destruct (_ || _) in Hv; [injection Hv as <-; discriminate|].
    destruct (_ && _) in Hv; [injection Hv as <-; discriminate|discriminate].
  - destruct (SQL.check_status (post_status body)) eqn:Hc.
    + rewrite (post_tasks_run _ _ _ Hv Hc) in H. injection H as <- <- <-.
      repeat split.
    + rewrite (post_tasks_rejected _ _ _ Hv Hc) in H. discriminate.
Qed.

Lemma put_tasks_run (db : Table) (i : Z) (body : TaskBody) (now : Z)
      (old : Task) :
  validateTask body = None ->
  SQL.get db i = Some old ->
  SQL.check_status (JS.or_else (body_status body) (status old)) = true ->
  put_tasks db i body now
  = (Success 200 (Some (put_row old body now)),
     mkTable (map (fun x => if id x =? i
                            then SQL.set_row
                                   (title (put_row old body now))
                                   (description (put_row old body now))
                                   (status (put_row old body now)) now x
                            else x)
                  (rows db)) (seq db))
  /\ SQL.get (snd (put_tasks db i body now)) i = Some (put_row old body now).
Proof.
  intros Hv Hg Hc. unfold put_tasks. rewrite Hv, Hg.
  set (ttl := trimmed_title body).
  set (desc := JS.or_else (trimmed_description body) (description old)).
  set (st := JS.or_else (body_status body) (status old)).
  pose proof (update_ok db ttl desc st now i Hc) as Hu.
  pose proof (get_update db _ ttl desc st now i old Hg Hu) as (_ & _ & Hg').
  rewrite Hu. cbn [snd]. rewrite Hg'. split; reflexivity.
Qed.

Lemma put_tasks_inv (db db' : Table) (i : Z) (body : TaskBody) (now code : Z)
      (data : option Task) :
  put_tasks db i body now = (Success code data, db') ->
  validateTask body = None /\
  exists old,
    SQL.get db i = Some old /\
    SQL.check_status (JS.or_else (body_status body) (status old)) = true /\
    code = 200 /\
    data = Some (put_row old body now) /\
    SQL.get db' i = Some (put_row old body now) /\
    db' = mkTable (map (fun x => if id x =? i
                                 then SQL.set_row
                                        (title (put_row old body now))
                                        (description (put_row old body now))
                                        (status (put_row old body now)) now x
                                 else x)
                       (rows db)) (seq db).
Proof.
  intro H. destruct (validateTask body) as [r|] eqn:Hv.
  - unfold put_tasks in H. rewrite Hv in H.
    unfold validateTask in Hv.
    destruct (_ || _) in Hv; [injection Hv as <-; discriminate|].
    destruct (_ && _) in Hv; [injection Hv as <-; discriminate|discriminate].
  - split; [reflexivity|].
    destruct (SQL.get db i) as [old|] eqn:Hg.
    2:{ unfold put_tasks in H. rewrite Hv, Hg in H. discriminate. }
    exists old. split; [reflexivity|].
    destruct (SQL.check_status (JS.or_else (body_status body) (status old)))
      eqn:Hc.
    + destruct (put_tasks_run db i body now old Hv Hg Hc) as [Hr Hg'].
      rewrite H in Hg'. cbn [snd] in Hg'.
      rewrite Hr in H. injection H as <- <- <-.
      repeat split. exact Hg'.
    + exfalso. unfold put_tasks in H. rewrite Hv, Hg in H.
      unfold SQL.update in H. rewrite (get_exists _ _ _ Hg), Hc in H.
      discriminate.
Qed.

End Handlers.

(** ** Validation before the store *)

Section RejectedRequests.

Lemma validateTask_of_typed (body : TaskBody) :
  Express.validateTask (Express.of_typed body)
  = match validateTask body with
    | Some r => Express.Answered r
    | None => Express.Next
    end.
Proof.
  unfold Express.validateTask, validateTask, Express.of_typed.
  cbn [Express.req_title Express.req_status].
  destruct (body_title body) as [t|]; cbn [Express.of_string JS.truthy_opt];
    [|reflexivity].
  unfold Express.title_refused. cbn [Express.truthy].
  destruct (JS.truthy t); cbn [negb orb]; [|reflexivity].
  destruct (String.length (JS.trim t) =? 0)%nat; [reflexivity|].
  unfold Express.status_refused.
  destruct (body_status body) as [s|]; cbn [Express.of_string JS.truthy_opt];
    [|reflexivity].
  cbn [Express.truthy]. now destruct (JS.truthy s && _).
Qed.

Lemma validateTask_no_title (body : Express.Body) :
  no_title body ->
  Express.validateTask body
  = Express.Answered (Failure 400 "Validation error").
Proof.
  unfold Express.validateTask, Express.title_refused.
  intros [H | (t & Ht & Hb)].
  - now rewrite H.
  - rewrite Ht. cbn [Express.truthy].
    destruct (JS.truthy t); cbn [negb]; [|reflexivity].
    now rewrite Hb.
Qed.

Lemma validateTask_unknown_status (body : Express.Body) :
  unknown_status body ->
  Express.validateTask body
  = Express.Answered (Failure 400 "Validation error").
Proof.
  intros ((t & Ht) & Hs & Hn).
  unfold Express.validateTask, Express.title_refused. rewrite Ht.
  cbn [Express.truthy].
  destruct (JS.truthy t); cbn [negb]; [|reflexivity].
  destruct (String.length (JS.trim t) =? 0)%nat; [reflexivity|].
  unfold Express.status_refused. rewrite Hs. cbn [andb].
  destruct (Express.req_status body) as [| |b|z|s|] eqn:E; try reflexivity.
  rewrite array_includes_statuses, (Hn s eq_refl). reflexivity.
Qed.

(** C1, amended: for every create or update request whose body the JSON
    parser has handed to [validateTask]: if the title is missing, null,
    false, 0, empty or a string of white space only, or if the title is a
    string and the status is a truthy value (a non-empty string, true, a
    number other than 0, an array or an object) that is not one of the
    three statuses, then [validateTask] answers 400 "Validation error",
    the handler of the route is not run, and the store is left as it was
    whatever that handler would do.  The handlers of POST and PUT are such
    routes, and refuse so the bodies that hold strings. *)
Theorem C1_validation_error_before_handler :
  (forall (S : Type) (handler : S -> Response * S) (body : Express.Body)
          (s : S),
      no_title body \/ unknown_status body ->
      Express.route handler body s = (Failure 400 "Validation error", s)) /\
  (forall (db : Table) (i : Z) (body : TaskBody) (now : Z),
      post_tasks db body now
      = Express.route (fun d => post_tasks d body now)
                      (Express.of_typed body) db /\
      put_tasks db i body now
      = Express.route (fun d => put_tasks d i body now)
                      (Express.of_typed body) db) /\
  (forall (db : Table) (i : Z) (body : TaskBody) (now : Z),
      blank_title body \/ bad_status body ->
      post_tasks db body now = (Failure 400 "Validation error", db) /\
      put_tasks db i body now = (Failure 400 "Validation error", db)).
Proof.
  split; [|split].
  - intros S handler body s H. unfold Express.route.
    destruct H as [H | H];
      [rewrite (validateTask_no_title _ H)
      | rewrite (validateTask_unknown_status _ H)]; reflexivity.
  - intros db i body now. unfold Express.route.
    rewrite validateTask_of_typed. unfold post_tasks, put_tasks.
    destruct (validateTask body); split; reflexivity.
  - intros db i body now H.
    assert (Hv : validateTask body = Some (Failure 400 "Validation error")).
    { destruct H; [now apply validateTask_blank_title
                  | now apply validateTask_bad_status]. }
    unfold post_tasks, put_tasks. rewrite Hv. split; reflexivity.
Qed.

Lemma C1_validation_error_before_handler_witness :
  let body := Express.mkBody (Express.Str "Buy milk") Express.Undefined
                             (Express.Number false) in
  unknown_status body /\
  Express.route
    (fun d => post_tasks d (mkBody (Some "Buy milk") None None) 20)
    body one_task
  = (Failure 400 "Validation error", one_task).
Proof.
  cbv zeta.
  assert (H : unknown_status
                (Express.mkBody (Express.Str "Buy milk") Express.Undefined
                                (Express.Number false))).
  { split; [now exists "Buy milk"|]. split; [reflexivity|]. discriminate. }
  split; [exact H|].
  apply (proj1 C1_validation_error_before_handler). right. exact H.
Defined.

(** C1 as stated fails: the empty string is a supplied status that is not
    one of the three statuses, yet an update carrying it is answered with
    200 and rewrites the row; a create carrying it is answered with 500,
    not 400. *)
Lemma C1_counterexample :
  let body := mkBody (Some "Y") None (Some "") in
  (exists s, body_status body = Some s /\ SQL.check_status s = false) /\
  put_tasks one_task 1 body 20
  = (Success 200 (Some (mkTask 1 "Y" "old" "completed" 10 20)),
     mkTable [mkTask 1 "Y" "old" "completed" 10 20] 1) /\
  snd (put_tasks one_task 1 body 20) <> one_task /\
  post_tasks one_task body 20 = (Failure 500 "Database error", one_task).
Proof.
  cbv zeta. split; [exists ""; split; reflexivity|].
  split; [reflexivity|]. split; [|reflexivity].
  vm_compute. discriminate.
Qed.

End RejectedRequests.

(** ** Create *)

Section Create.

(** C2: every successful create answers 201 with the stored row; its title
    is the trimmed title, its description the trimmed description (empty
    when none was sent), its status the supplied status or 'pending' when
    none was sent, its id one that no row has and none ever had, and both
    timestamps the current time.  A request with a non-blank title and no
    status does succeed; creating {title: "Buy milk"} stores status
    'pending'. *)
Theorem C2_create_stores_and_returns :
  (forall (db db' : Table) (body : TaskBody) (now code : Z)
          (data : option Task),
      post_tasks db body now = (Success code data, db') ->
      exists r,
        code = 201 /\ data = Some r /\
        rows db' = (rows db ++ [r])%list /\ SQL.get db' (id r) = Some r /\
        (exists t, body_title body = Some t /\ title r = JS.trim t) /\
        description r = match body_description body with
                        | Some d => JS.trim d
                        | None => ""
                        end /\
        status r = match body_status body with
                   | Some s => s
                   | None => "pending"
                   end /\
        (forall x, In x (rows db) -> id x <> id r) /\ seq db < id r /\
        (NoDup (map id (rows db)) -> NoDup (map id (rows db'))) /\
        created_at r = now /\ updated_at r = now) /\
  (forall (db : Table) (t : string) (d s : option string) (now : Z),
      JS.trim t <> "" ->
      match s with Some v => In v statuses | None => True end ->
      exists r db',
        post_tasks db (mkBody (Some t) d s) now = (Success 201 (Some r), db')
        /\ status r = match s with Some v => v | None => "pending" end) /\
  (forall (db : Table) (now : Z),
      exists r db',
        post_tasks db (mkBody (Some "Buy milk") None None) now
        = (Success 201 (Some r), db')
        /\ title r = "Buy milk" /\ status r = "pending"
        /\ In r (rows db')).
Proof.
  split; [|split].
  - intros db db' body now code data H.
    apply post_tasks_inv in H. destruct H as (Hv & Hc & -> & -> & ->).
    apply validateTask_None in Hv. destruct Hv as [(t & Ht & Hne) _].
    exists (post_row db body now). cbn [rows seq].
    assert (Hfresh : forall x, In x (rows db) -> id x <> id (post_row db body now)).
    { intros x Hx. apply next_rowid_fresh in Hx. cbn [post_row id]. lia. }
    repeat split.
    + unfold SQL.get. cbn [rows]. now apply find_app_fresh.
    + exists t. split; [assumption|]. cbn [post_row title].
      unfold trimmed_title. now rewrite Ht.
    + cbn [post_row description]. unfold trimmed_description.
      destruct (body_description body) as [d|]; [|reflexivity].
      apply or_else_default_empty.
    + exact Hfresh.
    + cbn [post_row id]. apply next_rowid_above_seq.
    + intro Hnd. rewrite map_app. cbn [map].
      apply NoDup_app; [exact Hnd | repeat constructor; intros [] |].
      intros a Hin [<- | []].
      apply in_map_iff in Hin. destruct Hin as (x & Hx & Hin).
      now apply (Hfresh x).
  - intros db t d s now Hne Hs.
    assert (Hck : SQL.check_status (post_status (mkBody (Some t) d s)) = true).
    { destruct s as [v|]; [|reflexivity]. cbn [post_status body_status].
      rewrite <- array_includes_statuses. unfold JS.array_includes.
      apply existsb_exists. exists v. split; [exact Hs | apply String.eqb_refl]. }
    eexists. eexists. split.
    + apply post_tasks_run; [|exact Hck].
      apply (validateTask_passes _ t); [reflexivity | assumption |].
      unfold passable_status. cbn [body_status].
      destruct s as [v|]; [now right | exact I].
    + reflexivity.
  - intros db now. eexists. eexists. split; [|split; [|split]].
    + apply post_tasks_run; reflexivity.
    + reflexivity.
    + reflexivity.
    + cbn [rows]. apply in_or_app. right. now left.
Qed.

Lemma C2_create_stores_and_returns_witness :
  post_tasks one_task (mkBody (Some " Buy milk ") (Some " 2 litres") None) 30
  = (Success 201 (Some (mkTask 2 "Buy milk" "2 litres" "pending" 30 30)),
     mkTable [mkTask 1 "X" "old" "completed" 10 10;
              mkTask 2 "Buy milk" "2 litres" "pending" 30 30] 2) /\
  exists r,
    201 = 201 /\
    Some (mkTask 2 "Buy milk" "2 litres" "pending" 30 30) = Some r /\
    title r = "Buy milk" /\ status r = "pending" /\ created_at r = 30.
Proof.
  split; [reflexivity|].
  destruct (proj1 C2_create_stores_and_returns one_task _
              (mkBody (Some " Buy milk ") (Some " 2 litres") None) 30 _ _
              eq_refl)
    as (r & H1 & H2 & _ & _ & (t & Ht & Htitle) & _ & Hs & _ & _ & _ & Hc & _).
  exists r. injection Ht as <-.
  repeat split; assumption.
Defined.

End Create.

(** ** ORDER BY created_at DESC *)

Section Ordering.

Lemma insert_desc_perm (r : Task) (l : list Task) :
  Permutation (SQL.insert_desc r l) (r :: l).
Proof.
  induction l as [|x l IH]; simpl; [apply Permutation_refl|].
  destruct (created_at x <=? created_at r); [apply Permutation_refl|].
  apply perm_trans with (x :: r :: l); [now apply perm_skip | apply perm_swap].
Qed.

Lemma order_by_perm (l : list Task) :
  Permutation (SQL.order_by_created_at_desc l) l.
Proof.
  induction l as [|x l IH]; simpl; [apply perm_nil|].
  apply perm_trans with (x :: SQL.order_by_created_at_desc l);
    [apply insert_desc_perm | now apply perm_skip].
Qed.

Lemma insert_desc_sorted (r : Task) (l : list Task) :
  StronglySorted not_older l -> StronglySorted not_older (SQL.insert_desc r l).
Proof.
  induction 1 as [|x l Hs IH Hx]; simpl.
  - constructor; constructor.
  - destruct (created_at x <=? created_at r) eqn:E.
    + apply Z.leb_le in E. constructor; [now constructor|].
      constructor; [exact E|].
      eapply Forall_impl; [|exact Hx]. unfold not_older. intros; lia.
    + apply Z.leb_gt in E. constructor; [exact IH|].
      eapply Permutation_Forall;
        [apply Permutation_sym, insert_desc_perm|].
      constructor; [unfold not_older; lia | exact Hx].
Qed.

Lemma order_by_sorted (l : list Task) :
  StronglySorted not_older (SQL.order_by_created_at_desc l).
Proof.
  induction l as [|x l IH]; simpl; [constructor | now apply insert_desc_sorted].
Qed.

(** A listing holds the rows of the table that pass the WHERE clause. *)
Lemma get_tasks_In (db : Table) (st se : option string) (x : Task) :
  In x (get_tasks db st se)
  <-> In x (rows db) /\ where_ (conditions st se) x = true.
Proof.
  unfold get_tasks. rewrite <- filter_In. split; intro H.
  - eapply Permutation_in; [apply order_by_perm | exact H].
  - eapply Permutation_in; [apply Permutation_sym, order_by_perm | exact H].
Qed.

Lemma get_tasks_all (db : Table) (x : Task) :
  In x (get_tasks db None None) <-> In x (rows db).
Proof.
  rewrite get_tasks_In. simpl. tauto.
Qed.

End Ordering.

(** ** Update *)

Section Update.

Lemma passable_checked (body : TaskBody) (old : Task) :
  passable_status body -> SQL.check_status (status old) = true ->
  SQL.check_status (JS.or_else (body_status body) (status old)) = true.
Proof.
  unfold passable_status, JS.or_else.
  destruct (body_status body) as [s|]; [|tauto].
  intros [-> | H] Ho; [exact Ho|]. now destruct (JS.truthy s).
Qed.

Lemma Forall2_map_self {A : Type} (P : A -> A -> Prop) (f : A -> A)
      (l : list A) :
  (forall x, P x (f x)) -> Forall2 P l (map f l).
Proof.
  intro H. induction l; simpl; constructor; auto.
Qed.

(** C3, amended: every successful update answers 200 with the stored row;
    its title is the trimmed title; its status is the supplied status when
    that is a non-empty string, else the status it had; its description is
    the trimmed supplied description when that is not empty, else the
    description it had; updated_at is the current time.  An update of an
    existing row with a non-blank title and a status that is missing,
    empty or one of the three does succeed. *)
Theorem C3_update_overwrites_or_retains :
  (forall (db db' : Table) (i : Z) (body : TaskBody) (now code : Z)
          (data : option Task),
      put_tasks db i body now = (Success code data, db') ->
      exists old r,
        SQL.get db i = Some old /\
        code = 200 /\ data = Some r /\ SQL.get db' i = Some r /\
        (exists t, body_title body = Some t /\ title r = JS.trim t) /\
        status r = match body_status body with
                   | Some s => if (s =? "")%string then status old else s
                   | None => status old
                   end /\
        description r = match body_description body with
                        | Some d => if (JS.trim d =? "")%string
                                    then description old else JS.trim d
                        | None => description old
                        end /\
        updated_at r = now) /\
  (forall (db : Table) (i : Z) (body : TaskBody) (now : Z) (old : Task)
          (t : string),
      SQL.get db i = Some old -> SQL.check_status (status old) = true ->
      body_title body = Some t -> JS.trim t <> "" -> passable_status body ->
      exists r db', put_tasks db i body now = (Success 200 (Some r), db')).
Proof.
  split.
  - intros db db' i body now code data H.
    apply put_tasks_inv in H.
    destruct H as (Hv & old & Hg & Hc & -> & -> & Hg' & ->).
    apply validateTask_None in Hv. destruct Hv as [(t & Ht & Hne) _].
    exists old, (put_row old body now). repeat split; try assumption.
    + exists t. split; [assumption|]. cbn [put_row SQL.set_row title].
      unfold trimmed_title. now rewrite Ht.
    + cbn [put_row SQL.set_row status]. unfold JS.or_else, JS.truthy.
      destruct (body_status body) as [s|]; [|reflexivity].
      now destruct (s =? "")%string.
    + cbn [put_row SQL.set_row description].
      unfold trimmed_description, JS.or_else, JS.truthy.
      destruct (body_description body) as [d|]; [|reflexivity].
      cbn [option_map]. now destruct (JS.trim d =? "")%string.
  - intros db i body now old t Hg Ho Ht Hne Hp.
    pose proof (validateTask_passes body t Ht Hne Hp) as Hv.
    destruct (put_tasks_run db i body now old Hv Hg (passable_checked _ _ Hp Ho))
      as [Hr _].
    rewrite Hr. eexists. eexists. reflexivity.
Qed.

Lemma C3_update_overwrites_or_retains_witness :
  put_tasks one_task 1 (mkBody (Some " Y ") (Some " new ") (Some "pending")) 20
  = (Success 200 (Some (mkTask 1 "Y" "new" "pending" 10 20)),
     mkTable [mkTask 1 "Y" "new" "pending" 10 20] 1) /\
  exists old r,
    SQL.get one_task 1 = Some old /\
    Some (mkTask 1 "Y" "new" "pending" 10 20) = Some r /\
    title r = "Y" /\ status r = "pending" /\ description r = "new" /\
    updated_at r = 20.
Proof.
  split; [reflexivity|].
  destruct (proj1 C3_update_overwrites_or_retains one_task _ 1
              (mkBody (Some " Y ") (Some " new ") (Some "pending")) 20 _ _
              eq_refl)
    as (old & r & H1 & _ & H2 & _ & (t & Ht & Htitle) & Hs & Hd & Hu).
  exists old, r. injection Ht as <-.
  repeat split; assumption.
Defined.

(** C3 as stated fails: an update that supplies the empty description and
    the empty status succeeds and overwrites neither; the row keeps the
    description and the status it had. *)
Lemma C3_counterexample :
  let body := mkBody (Some "Y") (Some "") (Some "") in
  body_description body = Some "" /\ body_status body = Some "" /\
  put_tasks one_task 1 body 20
  = (Success 200 (Some (mkTask 1 "Y" "old" "completed" 10 20)),
     mkTable [mkTask 1 "Y" "old" "completed" 10 20] 1) /\
  description (mkTask 1 "Y" "old" "completed" 10 20) <> "" /\
  status (mkTask 1 "Y" "old" "completed" 10 20) <> "".
Proof.
  cbv zeta. repeat split; discriminate.
Qed.

End Update.

(** ** Update of the status, and what an update leaves alone *)

Section UpdateStatus.

(** C8, amended: for each of the three statuses 'pending', 'in progress'
    and 'completed', updating an existing task with that status (and a
    non-blank title) succeeds, and reading the task back, from the table
    or from the listing, yields that status. *)
Theorem C8_update_status_read_back :
  forall (s : string), In s statuses ->
  forall (db : Table) (i : Z) (old : Task) (t : string) (d : option string)
         (now : Z),
    SQL.get db i = Some old -> JS.trim t <> "" ->
    exists r db',
      put_tasks db i (mkBody (Some t) d (Some s)) now
      = (Success 200 (Some r), db') /\
      status r = s /\
      SQL.get db' i = Some r /\
      (exists x, In x (get_tasks db' None None) /\ id x = i) /\
      (forall x, In x (get_tasks db' None None) -> id x = i -> status x = s).
Proof.
  intros s Hs db i old t d now Hg Hne.
  assert (Hck : SQL.check_status s = true).
  { rewrite <- array_includes_statuses. unfold JS.array_includes.
    apply existsb_exists. exists s. split; [exact Hs | apply String.eqb_refl]. }
  assert (Hnz : s <> "").
  { intros ->. discriminate. }
  set (body := mkBody (Some t) d (Some s)).
  assert (Hv : validateTask body = None).
  { apply (validateTask_passes body t); [reflexivity | exact Hne |].
    right. exact Hck. }
  assert (Ho : JS.or_else (body_status body) (status old) = s)
    by (now apply or_else_truthy).
  assert (Hc : SQL.check_status (JS.or_else (body_status body) (status old))
               = true) by (now rewrite Ho).
  destruct (put_tasks_run db i body now old Hv Hg Hc) as [Hr Hg'].
  rewrite Hr in Hg'. cbn [snd] in Hg'. rewrite Hr.
  eexists. eexists. split; [reflexivity|].
  split; [exact Ho|]. split; [exact Hg'|]. split.
  - exists (put_row old body now). split.
    + apply get_tasks_all. apply get_Some in Hg'. tauto.
    + apply get_Some in Hg. tauto.
  - intros x Hx Hi. apply get_tasks_all in Hx. cbn [rows] in Hx.
    apply in_map_iff in Hx. destruct Hx as (y & Hy & _).
    destruct (id y =? i) eqn:E.
    + subst x. cbn [SQL.set_row status put_row]. exact Ho.
    + subst x. apply Z.eqb_neq in E. contradiction.
Qed.

Lemma C8_update_status_read_back_witness :
  In "in progress" statuses /\
  exists r db',
    put_tasks one_task 1 (mkBody (Some "X") None (Some "in progress")) 20
    = (Success 200 (Some r), db') /\
    status r = "in progress" /\
    SQL.get db' 1 = Some r.
Proof.
  assert (H : In "in progress" statuses) by (right; left; reflexivity).
  split; [exact H|].
  destruct (C8_update_status_read_back "in progress" H one_task 1
              (mkTask 1 "X" "old" "completed" 10 10) "X" None 20 eq_refl)
    as (r & db' & H1 & H2 & H3 & _).
  - discriminate.
  - exists r, db'. repeat split; assumption.
Defined.

(** C8 as stated fails at in_progress: the status the server knows is
    'in progress'; an update to 'in_progress' is answered with 400 and the
    task read back keeps the status it had. *)
Lemma C8_counterexample :
  put_tasks one_task 1 (mkBody (Some "X") None (Some "in_progress")) 20
  = (Failure 400 "Validation error", one_task) /\
  map status (get_tasks one_task None None) = ["completed"] /\
  option_map status (SQL.get one_task 1) <> Some "in_progress".
Proof.
  repeat split. discriminate.
Qed.

(** C9: a successful update leaves the id and created_at of every row as
    they were, changes no row with another id, and answers with a row that
    has the id asked for and the created_at the row had. *)
Theorem C9_update_frame :
  forall (db db' : Table) (i : Z) (body : TaskBody) (now code : Z)
         (data : option Task),
    put_tasks db i body now = (Success code data, db') ->
    (exists old r,
        SQL.get db i = Some old /\ data = Some r /\
        id r = i /\ id r = id old /\ created_at r = created_at old) /\
    Forall2 (fun x x' => id x' = id x /\ created_at x' = created_at x /\
                         (id x <> i -> x' = x))
            (rows db) (rows db') /\
    seq db' = seq db.
Proof.
  intros db db' i body now code data H.
  apply put_tasks_inv in H.
  destruct H as (_ & old & Hg & _ & _ & -> & _ & ->).
  split; [|split].
  - exists old, (put_row old body now).
    destruct (get_Some _ _ _ Hg) as [_ Hid].
    repeat split; [exact Hg | exact Hid].
  - cbn [rows]. apply Forall2_map_self. intro x.
    destruct (id x =? i) eqn:E.
    + apply Z.eqb_eq in E. repeat split. intro. contradiction.
    + repeat split.
  - reflexivity.
Qed.

Lemma C9_update_frame_witness :
  put_tasks two_tasks 1 (mkBody (Some "Y") None None) 20
  = (Success 200 (Some (mkTask 1 "Y" "old" "completed" 10 20)),
     mkTable [mkTask 1 "Y" "old" "completed" 10 20;
              mkTask 2 "Z" "" "pending" 11 11] 2) /\
  Forall2 (fun x x' => id x' = id x /\ created_at x' = created_at x /\
                       (id x <> 1 -> x' = x))
          (rows two_tasks)
          [mkTask 1 "Y" "old" "completed" 10 20;
           mkTask 2 "Z" "" "pending" 11 11].
Proof.
  split; [reflexivity|].
  exact (proj1 (proj2 (C9_update_frame two_tasks _ 1
                         (mkBody (Some "Y") None None) 20 _ _ eq_refl))).
Defined.

(** C10: a request whose status is the empty string (and whose title is
    not blank) passes [validateTask].  On create the empty string is
    bound as it is, the CHECK constraint rejects the insert, and the answer
    is 500 "Database error" with the table unchanged.  On update of an
    existing task the row keeps the status it had and the answer is 200. *)
Theorem C10_empty_status :
  forall (body : TaskBody) (t : string),
    body_title body = Some t -> JS.trim t <> "" ->
    body_status body = Some "" ->
    validateTask body = None /\
    (forall (db : Table) (now : Z),
        SQL.insert db (trimmed_title body)
                   (JS.or_else (trimmed_description body) "") "" now = None /\
        post_tasks db body now = (Failure 500 "Database error", db)) /\
    (forall (db : Table) (i : Z) (old : Task) (now : Z),
        SQL.get db i = Some old -> SQL.check_status (status old) = true ->
        exists r db',
          put_tasks db i body now = (Success 200 (Some r), db') /\
          status r = status old /\ SQL.get db' i = Some r).
Proof.
  intros body t Ht Hne Hs.
  assert (Hp : passable_status body).
  { unfold passable_status. rewrite Hs. now left. }
  pose proof (validateTask_passes body t Ht Hne Hp) as Hv.
  split; [exact Hv|]. split.
  - intros db now. split; [reflexivity|].
    apply post_tasks_rejected; [exact Hv|].
    unfold post_status. rewrite Hs. reflexivity.
  - intros db i old now Hg Ho.
    destruct (put_tasks_run db i body now old Hv Hg (passable_checked _ _ Hp Ho))
      as [Hr Hg'].
    rewrite Hr in Hg'. cbn [snd] in Hg'. rewrite Hr.
    eexists. eexists. split; [reflexivity|]. split; [|exact Hg'].
    cbn [put_row SQL.set_row status]. rewrite Hs. reflexivity.
Qed.

Lemma C10_empty_status_witness :
  validateTask (mkBody (Some "Y") None (Some "")) = None /\
  post_tasks one_task (mkBody (Some "Y") None (Some "")) 20
  = (Failure 500 "Database error", one_task) /\
  exists r db',
    put_tasks one_task 1 (mkBody (Some "Y") None (Some "")) 20
    = (Success 200 (Some r), db') /\
    status r = "completed".
Proof.
  destruct (C10_empty_status (mkBody (Some "Y") None (Some "")) "Y" eq_refl)
    as (Hv & Hpost & Hput); [discriminate | reflexivity |].
  split; [exact Hv|]. split; [apply Hpost|].
  destruct (Hput one_task 1 (mkTask 1 "X" "old" "completed" 10 10) 20
              eq_refl eq_refl) as (r & db' & H1 & H2 & _).
  exists r, db'. split; assumption.
Defined.

End UpdateStatus.

(** ** Delete *)

Section Delete.

(** C4: deleting an id that no row has answers 404 and leaves the table as
    it was; deleting an existing id answers 200 with the row as it was just
    before, after which no row has that id, every other row is still there
    and (ids being distinct) the table is one row shorter.  After
    create(title x), update(id, title y), delete(id) the rows are those
    from before the create, and the delete answers with title y. *)
Theorem C4_delete :
  (forall (db : Table) (i : Z),
      SQL.get db i = None ->
      delete_tasks db i = (Failure 404 "Not found", db)) /\
  (forall (db : Table) (i : Z) (r : Task),
      SQL.get db i = Some r ->
      exists db',
        delete_tasks db i = (Success 200 (Some r), db') /\
        SQL.get db' i = None /\
        (forall x, In x (rows db') <-> In x (rows db) /\ id x <> i) /\
        (forall x, In x (get_tasks db' None None) -> id x <> i) /\
        (NoDup (map id (rows db)) ->
         List.length (rows db) = S (List.length (rows db')))) /\
  (forall (db : Table) (x y : string) (now1 now2 : Z),
      JS.trim x <> "" -> JS.trim y <> "" ->
      exists r1 db1 r2 db2 r3 db3,
        post_tasks db (mkBody (Some x) None None) now1
        = (Success 201 (Some r1), db1) /\
        put_tasks db1 (id r1) (mkBody (Some y) None None) now2
        = (Success 200 (Some r2), db2) /\
        delete_tasks db2 (id r1) = (Success 200 (Some r3), db3) /\
        title r1 = JS.trim x /\ title r3 = JS.trim y /\ r3 = r2 /\
        rows db3 = rows db /\
        get_tasks db3 None None = get_tasks db None None) /\
  (exists db1 db2,
      post_tasks SQL.empty (mkBody (Some "X") None None) 1
      = (Success 201 (Some (mkTask 1 "X" "" "pending" 1 1)), db1) /\
      put_tasks db1 1 (mkBody (Some "Y") None None) 2
      = (Success 200 (Some (mkTask 1 "Y" "" "pending" 1 2)), db2) /\
      delete_tasks db2 1
      = (Success 200 (Some (mkTask 1 "Y" "" "pending" 1 2)), mkTable [] 1) /\
      get_tasks (mkTable [] 1) None None = []).
Proof.
  split; [|split; [|split]].
  - intros db i H. unfold delete_tasks. now rewrite H.
  - intros db i r H. exists (SQL.delete db i).
    split; [unfold delete_tasks; now rewrite H|].
    split; [apply get_delete|].
    assert (Hin : forall x, In x (rows (SQL.delete db i))
                            <-> In x (rows db) /\ id x <> i).
    { intro x. cbn [SQL.delete rows]. rewrite filter_In, negb_true_iff.
      now rewrite Z.eqb_neq. }
    split; [exact Hin|]. split.
    + intros x Hx. apply get_tasks_all in Hx. now apply Hin in Hx.
    + intro Hnd. cbn [SQL.delete rows]. apply get_Some in H.
      now apply (delete_length _ i r).
  - intros db x y now1 now2 Hx Hy.
    set (bx := mkBody (Some x) None None).
    set (by_ := mkBody (Some y) None None).
    assert (Hvx : validateTask bx = None)
      by (apply (validateTask_passes bx x); [reflexivity | exact Hx | exact I]).
    assert (Hvy : validateTask by_ = None)
      by (apply (validateTask_passes by_ y); [reflexivity | exact Hy | exact I]).
    pose proof (post_tasks_run db bx now1 Hvx eq_refl) as H1.
    set (r1 := post_row db bx now1) in *.
    set (db1 := mkTable (rows db ++ [r1]) (SQL.next_rowid db)) in *.
    assert (Hfresh : forall z, In z (rows db) -> id z <> id r1).
    { intros z Hz. apply next_rowid_fresh in Hz. cbn [r1 post_row id]. lia. }
    assert (Hg1 : SQL.get db1 (id r1) = Some r1).
    { unfold SQL.get. cbn [db1 rows]. now apply find_app_fresh. }
    destruct (put_tasks_run db1 (id r1) by_ now2 r1 Hvy Hg1 eq_refl)
      as [H2 Hg2].
    set (r2 := put_row r1 by_ now2) in *.
    assert (Hrows2 : rows (snd (put_tasks db1 (id r1) by_ now2))
                     = (rows db ++ [r2])%list).
    { rewrite H2. cbn [snd rows db1]. rewrite map_app.
      rewrite map_update_fresh by exact Hfresh.
      cbn [map]. rewrite Z.eqb_refl. reflexivity. }
    set (db2 := snd (put_tasks db1 (id r1) by_ now2)) in *.
    exists r1, db1, r2, db2, r2, (SQL.delete db2 (id r1)).
    assert (Hrows3 : rows (SQL.delete db2 (id r1)) = rows db).
    { cbn [SQL.delete rows]. rewrite Hrows2.
      apply filter_app_fresh; [exact Hfresh | reflexivity]. }
    split; [exact H1|]. split.
    { rewrite (surjective_pairing (put_tasks db1 (id r1) by_ now2)).
      fold db2. rewrite H2. reflexivity. }
    split; [unfold delete_tasks; now rewrite Hg2|].
    split; [reflexivity|]. split; [reflexivity|]. split; [reflexivity|].
    split; [exact Hrows3|]. unfold get_tasks. now rewrite Hrows3.
  - eexists. eexists. repeat split.
Qed.

Lemma C4_delete_witness :
  SQL.get one_task 7 = None /\
  delete_tasks one_task 7 = (Failure 404 "Not found", one_task) /\
  exists db',
    delete_tasks two_tasks 2
    = (Success 200 (Some (mkTask 2 "Z" "" "pending" 11 11)), db') /\
    SQL.get db' 2 = None.
Proof.
  split; [reflexivity|].
  split; [exact (proj1 C4_delete one_task 7 eq_refl)|].
  destruct (proj1 (proj2 C4_delete) two_tasks 2 _ eq_refl)
    as (db' & H1 & H2 & _).
  exists db'. split; assumption.
Defined.

End Delete.

(** ** Listing order *)

Section ListingOrder.

Lemma before_cons (a x y : Task) (l : list Task) :
  before x y l -> before x y (a :: l).
Proof.
  intros (l1 & l2 & l3 & ->). now exists (a :: l1), l2, l3.
Qed.

(** In a listing the newer of two rows comes first. *)
Lemma sorted_before (l : list Task) (x y : Task) :
  StronglySorted not_older l -> In x l -> In y l ->
  created_at y < created_at x -> before x y l.
Proof.
  induction 1 as [|a l Hs IH Ha]; intros Hx Hy Hlt; [destruct Hx|].
  destruct Hx as [-> | Hx].
  - destruct Hy as [-> | Hy]; [lia|].
    apply in_split in Hy. destruct Hy as (l2 & l3 & ->).
    now exists [], l2, l3.
  - destruct Hy as [-> | Hy].
    + rewrite Forall_forall in Ha. specialize (Ha x Hx).
      unfold not_older in Ha. lia.
    + apply before_cons. now apply IH.
Qed.

(** C5, amended: every listing is ordered by created_at descending; when
    tasks A, B and C are created in that order at strictly increasing
    times, the listing has C before B and B before A, and it is [C; B; A]
    when the table was empty before. *)
Theorem C5_listing_newest_first :
  (forall (db : Table) (st se : option string),
      StronglySorted not_older (get_tasks db st se)) /\
  (forall (db db1 db2 db3 : Table) (ba bb bc : TaskBody) (ta tb tc : Z)
          (ca cb cc : Z) (ra rb rc : Task),
      post_tasks db ba ta = (Success ca (Some ra), db1) ->
      post_tasks db1 bb tb = (Success cb (Some rb), db2) ->
      post_tasks db2 bc tc = (Success cc (Some rc), db3) ->
      ta < tb -> tb < tc ->
      before rc rb (get_tasks db3 None None) /\
      before rb ra (get_tasks db3 None None) /\
      (rows db = [] -> get_tasks db3 None None = [rc; rb; ra])).
Proof.
  split.
  - intros. apply order_by_sorted.
  - intros db db1 db2 db3 ba bb bc ta tb tc ca cb cc ra rb rc H1 H2 H3 Hab Hbc.
    apply post_tasks_inv in H1. destruct H1 as (_ & _ & _ & Ea & ->).
    injection Ea as ->.
    apply post_tasks_inv in H2. destruct H2 as (_ & _ & _ & Eb & ->).
    injection Eb as ->.
    apply post_tasks_inv in H3. destruct H3 as (_ & _ & _ & Ec & ->).
    injection Ec as ->.
    set (ra := post_row db ba ta).
    set (rb := post_row _ bb tb).
    set (rc := post_row _ bc tc).
    assert (Ta : created_at ra = ta) by reflexivity.
    assert (Tb : created_at rb = tb) by reflexivity.
    assert (Tc : created_at rc = tc) by reflexivity.
    clearbody ra rb rc.
    set (db3 := mkTable _ _).
    assert (Hs : StronglySorted not_older (get_tasks db3 None None))
      by apply order_by_sorted.
    assert (Hin : forall x, In x [ra; rb; rc] ->
                            In x (get_tasks db3 None None)).
    { intros x Hx. apply get_tasks_all. cbn [db3 rows].
      rewrite <- !app_assoc. apply in_or_app. right. exact Hx. }
    split; [|split].
    + apply sorted_before; [exact Hs | apply Hin | apply Hin | lia];
        simpl; tauto.
    + apply sorted_before; [exact Hs | apply Hin | apply Hin | lia];
        simpl; tauto.
    + intro He. unfold get_tasks. cbn [db3 rows]. rewrite He.
      cbn [app filter where_ conditions forallb
           SQL.order_by_created_at_desc fold_right SQL.insert_desc].
      assert ((created_at rc <=? created_at rb) = false) as ->
        by (apply Z.leb_gt; lia).
      cbn [SQL.insert_desc].
      assert ((created_at rc <=? created_at ra) = false) as ->
        by (apply Z.leb_gt; lia).
      assert ((created_at rb <=? created_at ra) = false) as ->
        by (apply Z.leb_gt; lia).
      reflexivity.
Qed.

Lemma C5_listing_newest_first_witness :
  let A := mkTask 1 "A" "" "pending" 1 1 in
  let B := mkTask 2 "B" "" "pending" 2 2 in
  let C := mkTask 3 "C" "" "pending" 3 3 in
  get_tasks (mkTable [A; B; C] 3) None None = [C; B; A] /\
  before C B (get_tasks (mkTable [A; B; C] 3) None None).
Proof.
  cbv zeta.
  destruct (proj2 C5_listing_newest_first
              SQL.empty _ _ _
              (mkBody (Some "A") None None) (mkBody (Some "B") None None)
              (mkBody (Some "C") None None) 1 2 3 _ _ _ _ _ _
              eq_refl eq_refl eq_refl eq_refl eq_refl) as (H1 & _ & H3).
  split; [exact (H3 eq_refl) | exact H1].
Defined.

(** C5 as stated fails for creations within one second: the three rows
    carry the same created_at, and the listing gives them in the order of
    their creation, [A; B; C]. *)
Lemma C5_counterexample :
  let A := mkTask 1 "A" "" "pending" 1 1 in
  let B := mkTask 2 "B" "" "pending" 1 1 in
  let C := mkTask 3 "C" "" "pending" 1 1 in
  exists db1 db2 db3,
    post_tasks SQL.empty (mkBody (Some "A") None None) 1
    = (Success 201 (Some A), db1) /\
    post_tasks db1 (mkBody (Some "B") None None) 1
    = (Success 201 (Some B), db2) /\
    post_tasks db2 (mkBody (Some "C") None None) 1
    = (Success 201 (Some C), db3) /\
    get_tasks db3 None None = [A; B; C] /\
    get_tasks db3 None None <> [C; B; A].
Proof.
  cbv zeta. eexists. eexists. eexists.
  split; [reflexivity|]. split; [reflexivity|]. split; [reflexivity|].
  split; [reflexivity|]. vm_compute. discriminate.
Qed.

End ListingOrder.

(** ** LIKE and substring search *)

Section Like.

Lemma like_percent (p s : string) :
  SQL.patternCompare (String "%" p) s
  = SQL.patternCompare p s
    || match s with
       | EmptyString => false
       | String _ s' => SQL.patternCompare (String "%" p) s'
       end.
Proof.
  destruct s; reflexivity.
Qed.

Lemma like_percent_only (s : string) : SQL.patternCompare "%" s = true.
Proof.
  induction s as [|c s IH]; [reflexivity|].
  rewrite like_percent. rewrite IH. apply orb_true_r.
Qed.

Lemma like_char (c : ascii) (p s : string) :
  (c =? "%")%char = false ->
  SQL.patternCompare (String c p) s
  = match s with
    | EmptyString => false
    | String d s' =>
        ((c =? "_")%char || (SQL.tolower c =? SQL.tolower d)%char)
        && SQL.patternCompare p s'
    end.
Proof.
  intro H. cbn [SQL.patternCompare]. rewrite H. reflexivity.
Qed.

(** A pattern of plain characters followed by [%] matches the texts that
    begin with it, up to the case of ASCII letters. *)
Lemma like_literal_prefix (q s : string) :
  no_wildcard q = true ->
  SQL.patternCompare (q ++ "%") s = prefix (lower q) (lower s).
Proof.
  revert s. induction q as [|c q IH]; intros s H.
  - cbn [append lower]. rewrite like_percent_only.
    now destruct (lower s).
  - cbn [no_wildcard] in H. apply andb_true_iff in H. destruct H as [H Hq].
    apply andb_true_iff in H. destruct H as [Hp Hu].
    apply negb_true_iff in Hp, Hu.
    cbn [append]. rewrite (like_char _ _ _ Hp), Hu. cbn [orb].
    destruct s as [|d s]; [reflexivity|].
    cbn [lower prefix]. rewrite (IH s Hq).
    destruct (ascii_dec (SQL.tolower c) (SQL.tolower d)) as [E|E].
    + rewrite E, Ascii.eqb_refl. reflexivity.
    + apply Ascii.eqb_neq in E. rewrite E. reflexivity.
Qed.

(** [text LIKE '%q%'] for a search term [q] without wildcards: [q] occurs
    in [text], up to the case of ASCII letters. *)
Lemma like_literal_includes (q s : string) :
  no_wildcard q = true ->
  SQL.patternCompare ("%" ++ q ++ "%") s = JS.includes (lower s) (lower q).
Proof.
  intro H. induction s as [|d s IH].
  - cbn [append]. rewrite like_percent. rewrite (like_literal_prefix _ _ H).
    cbn [lower JS.includes]. reflexivity.
  - cbn [append] in *. rewrite like_percent. rewrite IH.
    rewrite (like_literal_prefix _ _ H). reflexivity.
Qed.

Lemma N_tolower (c : ascii) :
  N_of_ascii (SQL.tolower c)
  = (if (65 <=? N_of_ascii c) && (N_of_ascii c <=? 90)
     then N_of_ascii c + 32 else N_of_ascii c)%N.
Proof.
  unfold SQL.tolower.
  destruct ((65 <=? N_of_ascii c) && (N_of_ascii c <=? 90))%N eqn:E;
    [|reflexivity].
  apply andb_true_iff in E. destruct E as [E1 E2].
  apply N.leb_le in E1, E2. apply N_ascii_embedding. lia.
Qed.

Lemma N_toLowerChar (c : ascii) :
  N_of_ascii (JS.toLowerChar c)
  = (if ((65 <=? N_of_ascii c) && (N_of_ascii c <=? 90))
        || ((192 <=? N_of_ascii c) && (N_of_ascii c <=? 222)
            && negb (N_of_ascii c =? 215))
     then N_of_ascii c + 32 else N_of_ascii c)%N.
Proof.
  unfold JS.toLowerChar.
  destruct (_ || _)%N eqn:E; [|reflexivity].
  apply N_ascii_embedding.
  apply orb_true_iff in E. destruct E as [E|E].
  - apply andb_true_iff in E. destruct E as [E1 E2].
    apply N.leb_le in E1, E2. lia.
  - apply andb_true_iff in E. destruct E as [E _].
    apply andb_true_iff in E. destruct E as [E1 E2].
    apply N.leb_le in E1, E2. lia.
Qed.

Lemma N_of_ascii_inj (c d : ascii) : N_of_ascii c = N_of_ascii d -> c = d.
Proof.
  intro H. rewrite <- (ascii_N_embedding c), <- (ascii_N_embedding d).
  now rewrite H.
Qed.

(** On ASCII characters the two case foldings agree. *)
Lemma toLowerChar_ascii (c : ascii) :
  (N_of_ascii c < 128)%N -> JS.toLowerChar c = SQL.tolower c.
Proof.
  intro H. apply N_of_ascii_inj. rewrite N_toLowerChar, N_tolower.
  destruct ((65 <=? N_of_ascii c) && (N_of_ascii c <=? 90))%N; [reflexivity|].
  destruct (192 <=? N_of_ascii c)%N eqn:E; [|reflexivity].
  apply N.leb_le in E. lia.
Qed.

Lemma toLowerCase_ascii (s : string) :
  ascii_only s = true -> JS.toLowerCase s = lower s.
Proof.
  induction s as [|c s IH]; [reflexivity|].
  cbn [ascii_only]. intro H. apply andb_true_iff in H. destruct H as [Hc Hs].
  apply N.ltb_lt in Hc. cbn [JS.toLowerCase lower].
  now rewrite (toLowerChar_ascii c Hc), (IH Hs).
Qed.

Lemma cstr_no_nul (s : string) : no_nul s = true -> SQL.cstr s = s.
Proof.
  induction s as [|c s IH]; [reflexivity|].
  cbn [no_nul SQL.cstr]. intro H. apply andb_true_iff in H.
  destruct H as [Hc Hs]. apply negb_true_iff in Hc. rewrite Hc.
  now rewrite (IH Hs).
Qed.

Lemma no_nul_append (a b : string) :
  no_nul a = true -> no_nul b = true -> no_nul (a ++ b) = true.
Proof.
  intros Ha Hb. induction a as [|c a IH]; [exact Hb|].
  cbn [append no_nul] in *. apply andb_true_iff in Ha.
  destruct Ha as [Hc Ha]. now rewrite Hc, IH.
Qed.

(** [text LIKE '%q%'] for a search term [q] without wildcards and without
    U+0000: [q] occurs in [text] before its first U+0000, up to the case
    of ASCII letters. *)
Lemma like_plain_includes (q s : string) :
  no_wildcard q = true -> no_nul q = true ->
  SQL.like ("%" ++ q ++ "%") s = JS.includes (lower (SQL.cstr s)) (lower q).
Proof.
  intros Hw Hn. unfold SQL.like.
  rewrite (cstr_no_nul ("%" ++ q ++ "%")).
  - now apply like_literal_includes.
  - apply (no_nul_append "%"); [reflexivity|].
    now apply no_nul_append.
Qed.

Lemma plain_text_split (s : string) :
  plain_text s = true -> ascii_only s = true /\ no_nul s = true.
Proof.
  unfold plain_text. apply andb_true_iff.
Qed.

(** On plain text the client's match of a plain search term is the match
    LIKE makes. *)
Lemma like_plain_client (q s : string) :
  no_wildcard q = true -> plain_text q = true -> plain_text s = true ->
  SQL.like ("%" ++ q ++ "%") s
  = JS.includes (JS.toLowerCase s) (JS.toLowerCase q).
Proof.
  intros Hw Hq Hs.
  apply plain_text_split in Hq. destruct Hq as [Hqa Hqn].
  apply plain_text_split in Hs. destruct Hs as [Hsa Hsn].
  rewrite (like_plain_includes q s Hw Hqn), (cstr_no_nul s Hsn).
  now rewrite (toLowerCase_ascii q Hqa), (toLowerCase_ascii s Hsa).
Qed.

End Like.

(** ** Filtering *)

Section Filtering.

Lemma where_conditions (st se : option string) (x : Task) :
  where_ (conditions st se) x = true
  <-> status_selects st x /\ search_selects se x.
Proof.
  unfold where_, conditions. rewrite forallb_app, andb_true_iff.
  assert (Hand : forall A B C D : Prop,
             (A <-> C) -> (B <-> D) -> (A /\ B <-> C /\ D)) by tauto.
  apply Hand; clear Hand.
  - destruct st as [s|]; cbn [status_selects]; [|now cbn].
    unfold JS.truthy.
    destruct (String.eqb_spec s "") as [->|Hne]; cbn [negb andb forallb].
    { tauto. }
    destruct (String.eqb_spec s "all") as [->|Hna]; cbn [negb forallb andb].
    { tauto. }
    rewrite andb_true_r, String.eqb_eq. tauto.
  - destruct se as [q|]; cbn [search_selects]; [|now cbn].
    unfold JS.truthy.
    destruct (String.eqb_spec q "") as [->|Hne]; cbn [negb forallb].
    { tauto. }
    rewrite andb_true_r, orb_true_iff. tauto.
Qed.

Lemma get_tasks_selects (db : Table) (st se : option string) (x : Task) :
  In x (get_tasks db st se)
  <-> In x (rows db) /\ status_selects st x /\ search_selects se x.
Proof.
  rewrite get_tasks_In, where_conditions. reflexivity.
Qed.


(** C6, amended: for every list request whose search term holds none of
    [%], [_] and U+0000, the listing holds exactly the rows that pass both
    filters: the status filter is an exact match, and is skipped when the
    parameter is missing, empty or "all"; the search term is a substring
    match that ignores the case of ASCII letters only, against title or
    description, each read up to its first U+0000 if it has one.  Listing
    with search=milk gives the rows whose title or description holds
    "milk" in any letter case and no other; listing with status=completed
    gives only completed rows, and none if there is none. *)
Theorem C6_listing_filters :
  (forall (db : Table) (st se : option string) (x : Task),
      plain_search se ->
      (In x (get_tasks db st se)
       <-> In x (rows db) /\ status_selects st x /\ search_finds se x)) /\
  map id (get_tasks milk_tasks None (Some "milk")) = [2; 1] /\
  map id (get_tasks milk_tasks (Some "completed") (Some "milk")) = [2] /\
  (forall (db : Table) (se : option string) (x : Task),
      In x (get_tasks db (Some "completed") se) -> status x = "completed") /\
  (forall (db : Table) (se : option string),
      (forall x, In x (rows db) -> status x <> "completed") ->
      get_tasks db (Some "completed") se = []).
Proof.
  split.
  { intros db st se x Hp. rewrite get_tasks_selects.
    destruct se as [q|]; [|reflexivity].
    cbn [plain_search] in Hp. destruct Hp as [Hw Hn].
    cbn [search_selects search_finds].
    rewrite !(like_plain_includes _ _ Hw Hn). reflexivity. }
  split; [reflexivity|]. split; [reflexivity|].
  assert (H : forall db se x,
             In x (get_tasks db (Some "completed") se)
             -> In x (rows db) /\ status x = "completed").
  { intros db se x Hx. apply get_tasks_selects in Hx.
    destruct Hx as (Hin & [Hs | [Hs | Hs]] & _);
      [discriminate | discriminate | tauto]. }
  split.
  - intros db se x Hx. now apply (H db se x).
  - intros db se Hnone.
    destruct (get_tasks db (Some "completed") se) as [|x l] eqn:E;
      [reflexivity|].
    destruct (H db se x) as [Hin Hs]; [rewrite E; now left|].
    exfalso. now apply (Hnone x).
Qed.

Lemma C6_listing_filters_witness :
  let t := mkTask 2 "Walk the dog" "then get Milk" "completed" 11 11 in
  plain_search (Some "milk") /\
  (In t (get_tasks milk_tasks (Some "completed") (Some "milk"))
   <-> In t (rows milk_tasks) /\
       status_selects (Some "completed") t /\ search_finds (Some "milk") t) /\
  In t (get_tasks milk_tasks (Some "completed") (Some "milk")).
Proof.
  cbv zeta.
  assert (H : plain_search (Some "milk")) by (split; reflexivity).
  split; [exact H|]. split.
  - apply (proj1 C6_listing_filters milk_tasks). exact H.
  - now left.
Defined.

(** C6 as stated fails: the search term goes into the LIKE pattern as it
    is, so [_] stands for any character and the search for "_" gives a
    task that holds no "_"; LIKE folds the case of ASCII letters only, so
    the search for U+00E9 does not give the task titled U+00C9; and LIKE
    reads a text up to its first U+0000, so the search for "b" does not
    give the task whose title has its "b" after a U+0000. *)
Lemma C6_counterexample :
  let a := mkTask 1 "a" "" "pending" 10 10 in
  let e := mkTask 1 (String "201" "") "" "pending" 10 10 in
  let n := mkTask 1 (String "a" (String "000" "b")) "" "pending" 10 10 in
  get_tasks (mkTable [a] 1) None (Some "_") = [a] /\
  JS.includes (JS.toLowerCase (title a)) (JS.toLowerCase "_") = false /\
  JS.includes (JS.toLowerCase (description a)) (JS.toLowerCase "_") = false /\
  get_tasks (mkTable [e] 1) None (Some (String "233" "")) = [] /\
  JS.includes (JS.toLowerCase (title e)) (JS.toLowerCase (String "233" ""))
  = true /\
  get_tasks (mkTable [n] 1) None (Some "b") = [] /\
  JS.includes (JS.toLowerCase (title n)) (JS.toLowerCase "b") = true.
Proof.
  cbv zeta. repeat split.
Qed.




End Filtering.

(** ** The client's view of the full listing *)

Section ClientOverListing.

Lemma insert_desc_head (r : Task) (l : list Task) :
  Forall (not_older r) l -> SQL.insert_desc r l = r :: l.
Proof.
  destruct 1 as [|x l Hx _]; [reflexivity|].
  cbn [SQL.insert_desc]. unfold not_older in Hx.
  apply Z.leb_le in Hx. now rewrite Hx.
Qed.

Lemma filter_insert_desc (p : Task -> bool) (r : Task) (l : list Task) :
  StronglySorted not_older l ->
  filter p (SQL.insert_desc r l)
  = if p r then SQL.insert_desc r (filter p l) else filter p l.
Proof.
  induction 1 as [|x l Hs IH Hx].
  - cbn. now destruct (p r).
  - cbn [SQL.insert_desc]. destruct (created_at x <=? created_at r) eqn:E.
    + cbn [filter]. destruct (p r) eqn:Er; [|reflexivity].
      symmetry. apply (insert_desc_head r (filter p (x :: l))).
      apply Z.leb_le in E.
      apply Forall_forall. intros y Hy. apply filter_In in Hy.
      destruct Hy as [[<- | Hy] _]; [exact E|].
      rewrite Forall_forall in Hx. specialize (Hx y Hy).
      unfold not_older in *. lia.
    + cbn [filter]. rewrite IH.
      destruct (p x) eqn:Ex; destruct (p r) eqn:Er; try reflexivity.
      cbn [SQL.insert_desc]. now rewrite E.
Qed.

(** Filtering a listing is listing the filtered rows. *)
Lemma filter_order_by (p : Task -> bool) (l : list Task) :
  filter p (SQL.order_by_created_at_desc l)
  = SQL.order_by_created_at_desc (filter p l).
Proof.
  induction l as [|x l IH]; [reflexivity|].
  cbn [SQL.order_by_created_at_desc fold_right].
  fold (SQL.order_by_created_at_desc l).
  rewrite filter_insert_desc by apply order_by_sorted.
  rewrite IH. cbn [filter]. now destruct (p x).
Qed.

Lemma filter_filter (p q : Task -> bool) (l : list Task) :
  filter q (filter p l) = filter (fun x => p x && q x) l.
Proof.
  induction l as [|x l IH]; [reflexivity|].
  cbn [filter]. destruct (p x); cbn [filter andb]; now rewrite IH.
Qed.

Lemma filter_true (l : list Task) : filter (fun _ => true) l = l.
Proof.
  induction l as [|x l IH]; [reflexivity|]. cbn [filter]. now rewrite IH.
Qed.

Lemma filteredTasks_filter (l : list Task) (sf term : string) :
  Client.filteredTasks l sf term = filter (client_keeps sf term) l.
Proof.
  unfold Client.filteredTasks, client_keeps.
  destruct (negb (sf =? "all")%string); destruct (JS.truthy term).
  - apply filter_filter.
  - apply filter_ext. intro x. now rewrite andb_true_r.
  - reflexivity.
  - symmetry. apply filter_true.
Qed.

Lemma client_keeps_where (sf term : string) (x : Task) :
  sf <> "" -> no_wildcard term = true -> plain_text term = true ->
  plain_task x ->
  client_keeps sf term x = where_ (conditions (Some sf) (Some term)) x.
Proof.
  intros Hsf Hw Ht [H1 H2]. unfold client_keeps, where_, conditions.
  apply truthy_true in Hsf. rewrite Hsf. cbn [andb].
  rewrite forallb_app.
  destruct (negb (sf =? "all")%string); destruct (JS.truthy term);
    cbn [forallb];
    rewrite ?(like_plain_client term _ Hw Ht H1),
            ?(like_plain_client term _ Hw Ht H2);
    now rewrite ?andb_true_r.
Qed.

(** The client fetches the unfiltered listing and filters it; when titles
    and descriptions are ASCII text without U+0000, for a status filter
    other than the empty string and such a search text without wildcards,
    what it shows is the listing the server would give for the same
    status and search, in the same order. *)
Lemma filteredTasks_of_listing (db : Table) (statusFilter searchTerm : string) :
  Forall plain_task (rows db) ->
  statusFilter <> "" ->
  no_wildcard searchTerm = true -> plain_text searchTerm = true ->
  Client.filteredTasks (get_tasks db None None) statusFilter searchTerm
  = get_tasks db (Some statusFilter) (Some searchTerm).
Proof.
  intros Hall Hsf Hw Ht. rewrite filteredTasks_filter.
  assert (Hfull : get_tasks db None None
                  = SQL.order_by_created_at_desc (rows db)).
  { unfold get_tasks. cbn [conditions app where_ forallb].
    now rewrite filter_true. }
  rewrite Hfull.
  rewrite (filter_ext_in (client_keeps statusFilter searchTerm)
             (where_ (conditions (Some statusFilter) (Some searchTerm)))).
  - unfold get_tasks. apply filter_order_by.
  - intros x Hx. apply client_keeps_where; try assumption.
    rewrite Forall_forall in Hall. apply Hall.
    eapply Permutation_in; [apply order_by_perm | exact Hx].
Qed.

End ClientOverListing.

(** ** The table stays consistent *)

Section Consistency.

Lemma consistent_empty : consistent SQL.empty.
Proof.
  split; constructor.
Qed.

Lemma NoDup_map_filter (p : Task -> bool) (l : list Task) :
  NoDup (map id l) -> NoDup (map id (filter p l)).
Proof.
  induction l as [|x l IH]; cbn [map filter]; [trivial|].
  intro H. inversion H as [|? ? Hx Hl]; subst.
  destruct (p x); [|now apply IH].
  cbn [map]. constructor; [|now apply IH].
  intro Hin. apply Hx. apply in_map_iff in Hin.
  destruct Hin as (y & Hy & Hin). apply filter_In in Hin.
  apply in_map_iff. exists y. tauto.
Qed.

Lemma post_tasks_consistent (db : Table) (body : TaskBody) (now : Z) :
  consistent db -> consistent (snd (post_tasks db body now)).
Proof.
  intros [Hnd Hall].
  destruct (validateTask body) as [r|] eqn:Hv.
  { unfold post_tasks. rewrite Hv. now split. }
  destruct (SQL.check_status (post_status body)) eqn:Hc.
  2:{ rewrite (post_tasks_rejected _ _ _ Hv Hc). now split. }
  rewrite (post_tasks_run _ _ _ Hv Hc). unfold consistent. cbn [snd rows].
  apply validateTask_None in Hv. destruct Hv as [(t & Ht & Hne) _].
  split.
  - rewrite map_app. cbn [map].
    apply NoDup_app; [exact Hnd | repeat constructor; intros [] |].
    intros a Hin [<- | []]. apply in_map_iff in Hin.
    destruct Hin as (x & Hx & Hin). apply next_rowid_fresh in Hin.
    cbn [post_row id] in Hx. lia.
  - apply Forall_app. split; [exact Hall|].
    constructor; [|constructor]. split; [exact Hc|].
    cbn [post_row title]. unfold trimmed_title. now rewrite Ht.
Qed.

Lemma put_tasks_consistent (db : Table) (i : Z) (body : TaskBody) (now : Z) :
  consistent db -> consistent (snd (put_tasks db i body now)).
Proof.
  intros [Hnd Hall].
  destruct (put_tasks db i body now) as [[code data|code err] db'] eqn:E.
  - apply put_tasks_inv in E.
    destruct E as (Hv & old & Hg & Hc & _ & _ & _ & ->).
    apply validateTask_None in Hv. destruct Hv as [(t & Ht & Hne) _].
    unfold consistent. cbn [snd rows]. split.
    + rewrite map_map.
      erewrite map_ext; [exact Hnd|].
      intro x. cbn beta. now destruct (id x =? i).
    + apply Forall_map. eapply Forall_impl; [|exact Hall].
      intros x [Hx1 Hx2]. destruct (id x =? i); [|now split].
      cbn [put_row SQL.set_row status title]. split; [exact Hc|].
      unfold trimmed_title. now rewrite Ht.
  - assert (db' = db) as ->; [|now split].
    unfold put_tasks in E.
    destruct (validateTask body); [now injection E|].
    destruct (SQL.get db i); [|now injection E].
    destruct (SQL.update _ _ _ _ _ _); [discriminate | now injection E].
Qed.

Lemma delete_tasks_consistent (db : Table) (i : Z) :
  consistent db -> consistent (snd (delete_tasks db i)).
Proof.
  intros [Hnd Hall]. unfold delete_tasks.
  destruct (SQL.get db i); [|now split].
  unfold consistent. cbn [snd SQL.delete rows]. split.
  - now apply NoDup_map_filter.
  - apply Forall_forall. intros x Hx. apply filter_In in Hx.
    rewrite Forall_forall in Hall. now apply Hall.
Qed.

End Consistency.

(** * Further properties of the handlers *)

(** ** Refused requests *)

Section Refused.

Lemma validateTask_answer (body : TaskBody) (r : Response) :
  validateTask body = Some r -> r = Failure 400 "Validation error".
Proof.
  unfold validateTask.
  destruct (_ || _); [now intros [= <-]|].
  destruct (_ && _); [now intros [= <-] | discriminate].
Qed.

Lemma refused_unchanged :
  forall (db db' : Table) (q : Api.Request) (code : Z) (err : string),
    Api.serve db q = (Failure code err, db') -> db' = db.
Proof.
  intros db db' [body now | i body now | i] code err; cbn [Api.serve].
  - unfold post_tasks. destruct (validateTask body); [now intros [= _ <-]|].
    destruct (SQL.insert _ _ _ _ _) as [[j t]|];
      [discriminate | now intros [= _ _ <-]].
  - unfold put_tasks. destruct (validateTask body); [now intros [= _ <-]|].
    destruct (SQL.get db i); [|now intros [= _ _ <-]].
    destruct (SQL.update _ _ _ _ _ _); [discriminate | now intros [= _ _ <-]].
  - unfold delete_tasks. destruct (SQL.get db i);
      [discriminate | now intros [= _ _ <-]].
Qed.

(** A 400 or a 404 means that the table was not changed: both answers are
    sent before any INSERT, UPDATE or DELETE is run.  A 404 is the answer
    to an update or a delete of an id that no row has, never to a
    create. *)
Theorem refusal_leaves_table :
  forall (db db' : Table) (q : Api.Request) (code : Z) (err : string),
    Api.serve db q = (Failure code err, db') ->
    code = 400 \/ code = 404 ->
    db' = db /\
    (code = 404 ->
     exists i, SQL.get db i = None /\
               (q = Api.DELETE i \/ exists body now, q = Api.PUT i body now)).
Proof.
  intros db db' q code err H Hcode.
  split; [now apply (refused_unchanged db db' q code err)|].
  intro H404. subst code.
  destruct q as [body now | i body now | i]; cbn [Api.serve] in H.
  - exfalso. unfold post_tasks in H.
    destruct (validateTask body) as [r|] eqn:Hv.
    + apply validateTask_answer in Hv. subst r. discriminate.
    + destruct (SQL.insert _ _ _ _ _) as [[j t]|]; discriminate.
  - exists i. unfold put_tasks in H.
    destruct (validateTask body) as [r|] eqn:Hv.
    + apply validateTask_answer in Hv. subst r. discriminate.
    + destruct (SQL.get db i) eqn:Hg.
      * destruct (SQL.update _ _ _ _ _ _); discriminate.
      * split; [reflexivity|]. right. now exists body, now.
  - exists i. unfold delete_tasks in H.
    destruct (SQL.get db i) eqn:Hg; [discriminate|].
    split; [reflexivity|]. now left.
Qed.

Lemma refusal_leaves_table_witness :
  Api.serve two_tasks (Api.PUT 7 (mkBody (Some "Y") None None) 20)
  = (Failure 404 "Not found", two_tasks) /\
  two_tasks = two_tasks /\ SQL.get two_tasks 7 = None.
Proof.
  split; [reflexivity|].
  destruct (refusal_leaves_table two_tasks two_tasks
              (Api.PUT 7 (mkBody (Some "Y") None None) 20) 404 "Not found"
              eq_refl (or_intror eq_refl)) as [H1 _].
  split; [exact H1 | reflexivity].
Defined.

End Refused.

(** ** [trim] *)

Section Trim.

Lemma trimStart_head (s : string) :
  match JS.trimStart s with
  | EmptyString => True
  | String c _ => JS.isWhiteSpace c = false
  end.
Proof.
  induction s as [|c s IH]; cbn [JS.trimStart]; [exact I|].
  destruct (JS.isWhiteSpace c) eqn:E; [exact IH | exact E].
Qed.

Lemma trimEnd_cons (c : ascii) (s : string) :
  JS.trimEnd (String c s)
  = match JS.trimEnd s with
    | EmptyString =>
        if JS.isWhiteSpace c then EmptyString else String c EmptyString
    | String d t => String c (String d t)
    end.
Proof. reflexivity. Qed.

Lemma trimEnd_idem (s : string) : JS.trimEnd (JS.trimEnd s) = JS.trimEnd s.
Proof.
  induction s as [|c s IH]; [reflexivity|].
  rewrite (trimEnd_cons c s). destruct (JS.trimEnd s) as [|d t] eqn:E.
  - destruct (JS.isWhiteSpace c) eqn:Ec; [reflexivity|].
    rewrite trimEnd_cons. cbn [JS.trimEnd]. now rewrite Ec.
  - rewrite trimEnd_cons, IH. reflexivity.
Qed.

Lemma trimEnd_head (c : ascii) (s : string) :
  JS.isWhiteSpace c = false ->
  exists t, JS.trimEnd (String c s) = String c t.
Proof.
  intro H. cbn [JS.trimEnd]. destruct (JS.trimEnd s) as [|d t].
  - rewrite H. now exists EmptyString.
  - now exists (String d t).
Qed.

(** Trimming what is trimmed changes nothing. *)
Lemma trim_idem (s : string) : JS.trim (JS.trim s) = JS.trim s.
Proof.
  unfold JS.trim. pose proof (trimStart_head s) as H.
  destruct (JS.trimStart s) as [|c u]; [reflexivity|].
  destruct (trimEnd_head c u H) as [t Ht]. rewrite Ht.
  cbn [JS.trimStart]. rewrite H. rewrite <- Ht. apply trimEnd_idem.
Qed.

End Trim.

(** ** What every sequence of requests keeps *)

Section Kept.

Lemma max_rowid_nonneg (l : list Task) : 0 <= SQL.max_rowid l.
Proof.
  induction l as [|x l IH]; simpl; lia.
Qed.

Lemma next_rowid_positive (t : Table) : 0 < SQL.next_rowid t.
Proof.
  unfold SQL.next_rowid. pose proof (max_rowid_nonneg (rows t)). lia.
Qed.

Lemma sorted_snoc (l : list Task) (r : Task) :
  StronglySorted (fun x y => id x < id y) l ->
  Forall (fun x => id x < id r) l ->
  StronglySorted (fun x y => id x < id y) (l ++ [r]).
Proof.
  induction 1 as [|x l Hs IH Hx]; intro Hr; cbn [app].
  - constructor; constructor.
  - inversion Hr as [|? ? Hxr Hlr]; subst. constructor; [now apply IH|].
    apply Forall_app. split; [exact Hx | now constructor].
Qed.

Lemma sorted_map_same_id (f : Task -> Task) (l : list Task) :
  (forall x, id (f x) = id x) ->
  StronglySorted (fun x y => id x < id y) l ->
  StronglySorted (fun x y => id x < id y) (map f l).
Proof.
  intro Hf. induction 1 as [|x l Hs IH Hx]; cbn [map]; constructor.
  - exact IH.
  - apply Forall_map. eapply Forall_impl; [|exact Hx].
    intros y Hy. cbn beta. now rewrite !Hf.
Qed.

Lemma sorted_filter (p : Task -> bool) (l : list Task) :
  StronglySorted (fun x y => id x < id y) l ->
  StronglySorted (fun x y => id x < id y) (filter p l).
Proof.
  induction 1 as [|x l Hs IH Hx]; cbn [filter]; [constructor|].
  destruct (p x); [|exact IH]. constructor; [exact IH|].
  apply Forall_forall. intros y Hy. apply filter_In in Hy.
  rewrite Forall_forall in Hx. now apply Hx.
Qed.

Lemma sorted_ids_distinct (l : list Task) :
  StronglySorted (fun x y => id x < id y) l -> NoDup (map id l).
Proof.
  induction 1 as [|x l Hs IH Hx]; cbn [map]; constructor; [|exact IH].
  intro Hin. apply in_map_iff in Hin. destruct Hin as (y & Hy & Hin).
  rewrite Forall_forall in Hx. specialize (Hx y Hin). lia.
Qed.

Lemma kept_empty : kept SQL.empty.
Proof.
  split; constructor.
Qed.

Lemma trimmed_or_else (d : option string) (old : string) :
  JS.trim old = old ->
  JS.trim (JS.or_else (option_map JS.trim d) old)
  = JS.or_else (option_map JS.trim d) old.
Proof.
  intro Ho. destruct d as [d|]; cbn [option_map JS.or_else]; [|exact Ho].
  destruct (JS.truthy (JS.trim d)); [apply trim_idem | exact Ho].
Qed.

Lemma kept_serve (db : Table) (q : Api.Request) :
  kept db -> kept (snd (Api.serve db q)).
Proof.
  intros [Hs Hall].
  destruct (Api.serve db q) as [[code data | code err] db'] eqn:E.
  2:{ apply refused_unchanged in E. subst db'. now split. }
  cbn [snd]. destruct q as [body now | i body now | i]; cbn [Api.serve] in E.
  - apply post_tasks_inv in E. destruct E as (Hv & Hc & _ & _ & ->).
    apply validateTask_None in Hv. destruct Hv as [(t & Ht & Hne) _].
    unfold kept. cbn [rows seq]. split.
    + apply sorted_snoc; [exact Hs|].
      apply Forall_forall. intros x Hx. apply next_rowid_fresh in Hx.
      exact Hx.
    + apply Forall_app. split.
      * eapply Forall_impl; [|exact Hall]. cbn beta.
        intros x (Hx & Hrest). split; [|exact Hrest].
        pose proof (next_rowid_above_seq db). lia.
      * constructor; [|constructor]. cbn [post_row id status title description].
        split; [pose proof (next_rowid_positive db); lia|].
        split; [exact Hc|]. unfold trimmed_title. rewrite Ht.
        split; [exact Hne|]. split; [apply trim_idem|].
        unfold trimmed_description. now apply trimmed_or_else.
  - apply put_tasks_inv in E.
    destruct E as (Hv & old & Hg & Hc & _ & _ & _ & ->).
    apply validateTask_None in Hv. destruct Hv as [(t & Ht & Hne) _].
    apply get_Some in Hg. destruct Hg as [Hin _].
    rewrite Forall_forall in Hall.
    destruct (Hall old Hin) as (_ & _ & _ & _ & Hdold).
    unfold kept. cbn [rows seq]. split.
    + apply sorted_map_same_id; [|exact Hs].
      intro x. now destruct (id x =? i).
    + apply Forall_map. apply Forall_forall. intros x Hx. cbn beta.
      destruct (Hall x Hx) as (H1 & H2 & H3 & H4 & H5).
      destruct (id x =? i); [|tauto].
      cbn [put_row SQL.set_row id status title description].
      split; [exact H1|]. split; [exact Hc|].
      unfold trimmed_title. rewrite Ht.
      split; [exact Hne|]. split; [apply trim_idem|].
      unfold trimmed_description. now apply trimmed_or_else.
  - unfold delete_tasks in E. destruct (SQL.get db i); [|discriminate].
    injection E as _ _ <-. unfold kept. cbn [SQL.delete rows seq]. split.
    + now apply sorted_filter.
    + apply Forall_forall. intros x Hx. apply filter_In in Hx.
      rewrite Forall_forall in Hall. now apply Hall.
Qed.

(** Every sequence of requests whose bodies hold strings, as the client
    sends them, keeps the table as the handlers make it:
    rows in the order of their distinct, positive ids, none above the
    AUTOINCREMENT counter; statuses among the three; titles not empty;
    titles and descriptions without white space at either end.  The empty
    table is such a table. *)
Theorem requests_keep_table :
  kept SQL.empty /\
  (forall (db : Table) (qs : list Api.Request),
      kept db ->
      kept (Api.run db qs) /\ NoDup (map id (rows (Api.run db qs)))).
Proof.
  split; [exact kept_empty|].
  intros db qs. revert db. induction qs as [|q qs IH]; intros db H.
  - cbn [Api.run]. split; [exact H|]. apply sorted_ids_distinct, H.
  - cbn [Api.run]. apply IH. now apply kept_serve.
Qed.

Lemma requests_keep_table_witness :
  kept SQL.empty /\
  rows (Api.run SQL.empty
          [Api.POST (mkBody (Some " a ") (Some " d ") None) 1;
           Api.POST (mkBody (Some "c") None (Some "in progress")) 2;
           Api.PUT 2 (mkBody (Some " b ") (Some "  ") (Some "completed")) 3;
           Api.POST (mkBody (Some "e") None (Some "")) 4;
           Api.DELETE 1])
  = [mkTask 2 "b" "" "completed" 2 3] /\
  kept (Api.run SQL.empty
          [Api.POST (mkBody (Some " a ") (Some " d ") None) 1;
           Api.POST (mkBody (Some "c") None (Some "in progress")) 2;
           Api.PUT 2 (mkBody (Some " b ") (Some "  ") (Some "completed")) 3;
           Api.POST (mkBody (Some "e") None (Some "")) 4;
           Api.DELETE 1]).
Proof.
  split; [exact (proj1 requests_keep_table)|].
  split; [reflexivity|].
  exact (proj1 (proj2 requests_keep_table SQL.empty _
                  (proj1 requests_keep_table))).
Defined.

Lemma seq_serve (db : Table) (q : Api.Request) :
  seq db <= seq (snd (Api.serve db q)).
Proof.
  destruct (Api.serve db q) as [[code data | code err] db'] eqn:E.
  2:{ apply refused_unchanged in E. subst db'. cbn. lia. }
  cbn [snd]. destruct q as [body now | i body now | i]; cbn [Api.serve] in E.
  - apply post_tasks_inv in E. destruct E as (_ & _ & _ & _ & ->).
    cbn [seq]. pose proof (next_rowid_above_seq db). lia.
  - apply put_tasks_inv in E. destruct E as (_ & old & _ & _ & _ & _ & _ & ->).
    cbn [seq]. lia.
  - unfold delete_tasks in E. destruct (SQL.get db i); [|discriminate].
    injection E as _ _ <-. cbn. lia.
Qed.

Lemma seq_run (db : Table) (qs : list Api.Request) :
  seq db <= seq (Api.run db qs).
Proof.
  revert db. induction qs as [|q qs IH]; intro db; cbn [Api.run]; [lia|].
  pose proof (seq_serve db q). pose proof (IH (snd (Api.serve db q))). lia.
Qed.

(** Ids are not handed out twice: whatever requests come in between,
    deletes included, a task created later gets an id above the id of
    every task the table held before. *)
Theorem ids_never_reused :
  forall (db db' : Table) (qs : list Api.Request) (body : TaskBody)
         (now code : Z) (r : Task),
    Forall (fun x => id x <= seq db) (rows db) ->
    post_tasks (Api.run db qs) body now = (Success code (Some r), db') ->
    seq db < id r /\ forall x, In x (rows db) -> id x < id r.
Proof.
  intros db db' qs body now code r Hall H.
  apply post_tasks_inv in H. destruct H as (_ & _ & _ & Hr & _).
  injection Hr as ->. cbn [post_row id].
  pose proof (seq_run db qs) as Hs.
  pose proof (next_rowid_above_seq (Api.run db qs)) as Hn.
  split; [lia|]. intros x Hx. rewrite Forall_forall in Hall.
  specialize (Hall x Hx). lia.
Qed.

Lemma ids_never_reused_witness :
  Forall (fun x => id x <= seq one_task) (rows one_task) /\
  post_tasks (Api.run one_task [Api.DELETE 1]) (mkBody (Some "Z") None None) 30
  = (Success 201 (Some (mkTask 2 "Z" "" "pending" 30 30)),
     mkTable [mkTask 2 "Z" "" "pending" 30 30] 2) /\
  1 < id (mkTask 2 "Z" "" "pending" 30 30).
Proof.
  assert (H : Forall (fun x => id x <= seq one_task) (rows one_task)).
  { repeat constructor. cbn. lia. }
  split; [exact H|]. split; [reflexivity|].
  exact (proj1 (ids_never_reused one_task _ [Api.DELETE 1]
                  (mkBody (Some "Z") None None) 30 201 _ H eq_refl)).
Defined.

Lemma stamped_serve (t n : Z) (db : Table) (q : Api.Request) :
  stamped t db -> t <= n ->
  (forall m, Api.time_of q = Some m -> m = n) ->
  stamped n (snd (Api.serve db q)).
Proof.
  intros Hst Htn Hq.
  assert (Hweak : stamped n db).
  { eapply Forall_impl; [|exact Hst]. cbn beta. intros; lia. }
  destruct (Api.serve db q) as [[code data | code err] db'] eqn:E.
  2:{ apply refused_unchanged in E. now subst db'. }
  cbn [snd]. destruct q as [body now | i body now | i]; cbn [Api.serve] in E.
  - specialize (Hq now eq_refl). subst now.
    apply post_tasks_inv in E. destruct E as (_ & _ & _ & _ & ->).
    unfold stamped. cbn [rows]. apply Forall_app. split; [exact Hweak|].
    constructor; [|constructor]. cbn. lia.
  - specialize (Hq now eq_refl). subst now.
    apply put_tasks_inv in E. destruct E as (_ & old & _ & _ & _ & _ & _ & ->).
    unfold stamped. cbn [rows]. apply Forall_map.
    eapply Forall_impl; [|exact Hst]. cbn beta. intros x Hx.
    destruct (id x =? i); [|lia]. cbn. lia.
  - unfold delete_tasks in E. destruct (SQL.get db i); [|discriminate].
    injection E as _ _ <-. unfold stamped. cbn [SQL.delete rows].
    apply Forall_forall. intros x Hx. apply filter_In in Hx.
    unfold stamped in Hweak. rewrite Forall_forall in Hweak. now apply Hweak.
Qed.

(** As long as the clock of the server does not go back, no row carries
    an updated_at before its created_at. *)
Theorem updated_not_before_created :
  forall (t : Z) (db : Table) (qs : list Api.Request),
    stamped t db -> ticking t qs ->
    Forall (fun r => created_at r <= updated_at r) (rows (Api.run db qs)).
Proof.
  intros t db qs Hst Htk.
  assert (H : exists t', stamped t' (Api.run db qs)).
  { revert t db Hst Htk. induction qs as [|q qs IH]; intros t db Hst Htk.
    - now exists t.
    - cbn [Api.run]. cbn [ticking] in Htk.
      destruct (Api.time_of q) as [n|] eqn:Eq.
      + destruct Htk as [Htn Htk]. apply (IH n); [|exact Htk].
        apply (stamped_serve t n); [exact Hst | exact Htn |].
        intros m Hm. rewrite Eq in Hm. now injection Hm as <-.
      + apply (IH t); [|exact Htk].
        apply (stamped_serve t t); [exact Hst | lia |].
        intros m Hm. rewrite Eq in Hm. discriminate. }
  destruct H as [t' H]. eapply Forall_impl; [|exact H].
  cbn beta. intros; lia.
Qed.

Lemma updated_not_before_created_witness :
  stamped 0 SQL.empty /\
  ticking 0 [Api.POST (mkBody (Some "a") None None) 5;
             Api.PUT 1 (mkBody (Some "b") None None) 5;
             Api.DELETE 3;
             Api.PUT 1 (mkBody (Some "c") None None) 9] /\
  Forall (fun r => created_at r <= updated_at r)
         (rows (Api.run SQL.empty
                  [Api.POST (mkBody (Some "a") None None) 5;
                   Api.PUT 1 (mkBody (Some "b") None None) 5;
                   Api.DELETE 3;
                   Api.PUT 1 (mkBody (Some "c") None None) 9])).
Proof.
  assert (H0 : stamped 0 SQL.empty) by constructor.
  assert (H1 : ticking 0 [Api.POST (mkBody (Some "a") None None) 5;
                          Api.PUT 1 (mkBody (Some "b") None None) 5;
                          Api.DELETE 3;
                          Api.PUT 1 (mkBody (Some "c") None None) 9]).
  { cbn. lia. }
  split; [exact H0|]. split; [exact H1|].
  exact (updated_not_before_created 0 SQL.empty _ H0 H1).
Defined.

End Kept.

(** ** Requests repeated *)

Section Repeated.

Lemma or_else_idem (a : option string) (x : string) :
  JS.or_else a (JS.or_else a x) = JS.or_else a x.
Proof.
  unfold JS.or_else. destruct a as [s|]; [|reflexivity].
  now destruct (JS.truthy s).
Qed.

Lemma map_set_row_twice (l : list Task) (i now now' : Z)
      (ttl desc st : string) :
  map (fun x => if id x =? i then SQL.set_row ttl desc st now' x else x)
      (map (fun x => if id x =? i then SQL.set_row ttl desc st now x else x) l)
  = map (fun x => if id x =? i then SQL.set_row ttl desc st now' x else x) l.
Proof.
  rewrite map_map. apply map_ext. intro x.
  destruct (id x =? i) eqn:E; cbn [SQL.set_row id]; rewrite E; reflexivity.
Qed.

(** PUT is idempotent: the same update sent again, at the same time or
    later, gets the answer and leaves the table that it would have got
    and left had it been sent only then. *)
Theorem put_twice :
  forall (db : Table) (i : Z) (body : TaskBody) (now now' : Z),
    put_tasks (snd (put_tasks db i body now)) i body now'
    = put_tasks db i body now'.
Proof.
  intros db i body now now'.
  destruct (put_tasks db i body now) as [[code data | code err] db'] eqn:E.
  2:{ pose proof (refused_unchanged db db' (Api.PUT i body now) code err E).
      now subst db'. }
  cbn [snd]. apply put_tasks_inv in E.
  destruct E as (Hv & old & Hg & Hc & -> & -> & Hg' & Hdb).
  set (old' := put_row old body now) in *.
  assert (Hst : JS.or_else (body_status body) (status old')
                = JS.or_else (body_status body) (status old)).
  { cbn [old' put_row SQL.set_row status]. apply or_else_idem. }
  assert (Hd : JS.or_else (trimmed_description body) (description old')
               = JS.or_else (trimmed_description body) (description old)).
  { cbn [old' put_row SQL.set_row description]. apply or_else_idem. }
  assert (Hrow : put_row old' body now' = put_row old body now').
  { unfold put_row. rewrite Hst, Hd. reflexivity. }
  assert (Hc' : SQL.check_status
                  (JS.or_else (body_status body) (status old')) = true).
  { rewrite Hst. exact Hc. }
  destruct (put_tasks_run db' i body now' old' Hv Hg' Hc') as [Hr _].
  destruct (put_tasks_run db i body now' old Hv Hg Hc) as [Hr0 _].
  rewrite Hr, Hr0, Hrow. f_equal. rewrite Hdb. cbn [rows seq].
  cbn [put_row SQL.set_row title description status].
  now rewrite map_set_row_twice.
Qed.

(** A second DELETE of the same id finds nothing: it is answered with
    404 and leaves the table as the first one left it. *)
Theorem delete_twice :
  forall (db : Table) (i : Z),
    delete_tasks (snd (delete_tasks db i)) i
    = (Failure 404 "Not found", snd (delete_tasks db i)).
Proof.
  intros db i. unfold delete_tasks at 2 3.
  destruct (SQL.get db i) as [r|] eqn:E; cbn [snd].
  - unfold delete_tasks. now rewrite get_delete.
  - unfold delete_tasks. now rewrite E.
Qed.

(** An update cannot take a title or a description away: after a
    successful update the title is not empty, and a description that was
    not empty is not empty. *)
Theorem update_never_empties :
  forall (db db' : Table) (i : Z) (body : TaskBody) (now code : Z)
         (old r : Task),
    SQL.get db i = Some old ->
    put_tasks db i body now = (Success code (Some r), db') ->
    title r <> "" /\ (description old <> "" -> description r <> "").
Proof.
  intros db db' i body now code old r Hg H.
  apply put_tasks_inv in H.
  destruct H as (Hv & old' & Hg2 & _ & _ & Hr & _).
  rewrite Hg in Hg2. injection Hg2 as <-. injection Hr as ->.
  apply validateTask_None in Hv. destruct Hv as [(t & Ht & Hne) _].
  cbn [put_row SQL.set_row title description]. split.
  - unfold trimmed_title. now rewrite Ht.
  - intro Ho. unfold JS.or_else, trimmed_description.
    destruct (body_description body) as [d|]; cbn [option_map]; [|exact Ho].
    destruct (JS.truthy (JS.trim d)) eqn:E; [|exact Ho].
    now apply truthy_true.
Qed.

Lemma update_never_empties_witness :
  SQL.get one_task 1 = Some (mkTask 1 "X" "old" "completed" 10 10) /\
  put_tasks one_task 1 (mkBody (Some "Y") (Some "   ") None) 20
  = (Success 200 (Some (mkTask 1 "Y" "old" "completed" 10 20)),
     mkTable [mkTask 1 "Y" "old" "completed" 10 20] 1) /\
  description (mkTask 1 "Y" "old" "completed" 10 20) <> "".
Proof.
  split; [reflexivity|]. split; [reflexivity|].
  apply (update_never_empties one_task _ 1
           (mkBody (Some "Y") (Some "   ") None) 20 200 _ _ eq_refl eq_refl).
  discriminate.
Defined.

End Repeated.

(** ** Listings after requests *)

Section ListingsAfter.

Lemma filter_length_le (p : Task -> bool) (l : list Task) :
  (List.length (filter p l) <= List.length l)%nat.
Proof.
  induction l as [|x l IH]; cbn [filter]; [apply le_n|].
  destruct (p x); cbn [List.length]; lia.
Qed.

(** The filters only take rows out of the full listing: a filtered
    listing is the full listing, in its order, without the rows that the
    WHERE clause refuses; the full listing has every row of the table. *)
Theorem filtered_listing_of_full :
  forall (db : Table) (st se : option string),
    get_tasks db st se
    = filter (where_ (conditions st se)) (get_tasks db None None) /\
    (List.length (get_tasks db st se)
     <= List.length (get_tasks db None None))%nat /\
    List.length (get_tasks db None None) = List.length (rows db).
Proof.
  intros db st se.
  assert (Hall : get_tasks db None None
                 = SQL.order_by_created_at_desc (rows db)).
  { unfold get_tasks. cbn [conditions app where_ forallb].
    now rewrite filter_true. }
  assert (H : get_tasks db st se
              = filter (where_ (conditions st se)) (get_tasks db None None)).
  { rewrite Hall. unfold get_tasks. symmetry. apply filter_order_by. }
  split; [exact H|]. split.
  - rewrite H. apply filter_length_le.
  - rewrite Hall. apply Permutation_length, order_by_perm.
Qed.

Lemma order_by_snoc_newest (l : list Task) (r : Task) :
  Forall (fun x => created_at x < created_at r) l ->
  SQL.order_by_created_at_desc (l ++ [r])
  = r :: SQL.order_by_created_at_desc l.
Proof.
  induction 1 as [|x l Hx Hl IH]; [reflexivity|].
  cbn [app SQL.order_by_created_at_desc fold_right].
  fold (SQL.order_by_created_at_desc (l ++ [r])).
  fold (SQL.order_by_created_at_desc l).
  rewrite IH. cbn [SQL.insert_desc].
  assert ((created_at r <=? created_at x) = false) as ->
    by (apply Z.leb_gt; lia).
  reflexivity.
Qed.

(** A task created at a time after the creation of every other task heads
    the full listing, and the rest of the listing is as before. *)
Theorem created_task_listed_first :
  forall (db db' : Table) (body : TaskBody) (now code : Z) (r : Task),
    Forall (fun x => created_at x < now) (rows db) ->
    post_tasks db body now = (Success code (Some r), db') ->
    get_tasks db' None None = r :: get_tasks db None None.
Proof.
  intros db db' body now code r Hnew H.
  apply post_tasks_inv in H. destruct H as (_ & _ & _ & Hr & ->).
  injection Hr as ->.
  unfold get_tasks. cbn [conditions app where_ forallb rows].
  rewrite !filter_true. apply order_by_snoc_newest.
  eapply Forall_impl; [|exact Hnew]. cbn. intros; assumption.
Qed.

Lemma created_task_listed_first_witness :
  Forall (fun x => created_at x < 30) (rows two_tasks) /\
  get_tasks (mkTable (rows two_tasks ++ [mkTask 3 "N" "" "pending" 30 30]) 3)
            None None
  = mkTask 3 "N" "" "pending" 30 30 :: get_tasks two_tasks None None.
Proof.
  assert (H : Forall (fun x => created_at x < 30) (rows two_tasks)).
  { repeat constructor. }
  split; [exact H|].
  exact (created_task_listed_first two_tasks _
           (mkBody (Some "N") None None) 30 201 _ H eq_refl).
Defined.

Lemma filter_swap (p q : Task -> bool) (l : list Task) :
  filter p (filter q l) = filter q (filter p l).
Proof.
  rewrite !filter_filter. apply filter_ext. intro x. apply andb_comm.
Qed.

(** DELETE takes the rows of that id out of every listing and leaves the
    other rows where they were. *)
Theorem delete_from_listing :
  forall (db : Table) (i : Z) (st se : option string),
    get_tasks (snd (delete_tasks db i)) st se
    = filter (fun x => negb (id x =? i)) (get_tasks db st se).
Proof.
  intros db i st se. unfold delete_tasks.
  destruct (SQL.get db i) as [r|] eqn:E; cbn [snd].
  - unfold get_tasks. cbn [SQL.delete rows].
    rewrite filter_order_by. f_equal. apply filter_swap.
  - symmetry. apply filter_fresh. intros x Hx.
    apply get_tasks_In in Hx. destruct Hx as [Hx _].
    unfold SQL.get in E. apply (find_none _ _ E) in Hx.
    now apply Z.eqb_neq.
Qed.

Lemma insert_desc_map (f : Task -> Task) (r : Task) (l : list Task) :
  (forall x, created_at (f x) = created_at x) ->
  SQL.insert_desc (f r) (map f l) = map f (SQL.insert_desc r l).
Proof.
  intro Hf. induction l as [|x l IH]; [reflexivity|].
  cbn [map SQL.insert_desc]. rewrite !Hf.
  destruct (created_at x <=? created_at r); [reflexivity|].
  cbn [map]. now rewrite IH.
Qed.

Lemma order_by_map (f : Task -> Task) (l : list Task) :
  (forall x, created_at (f x) = created_at x) ->
  SQL.order_by_created_at_desc (map f l)
  = map f (SQL.order_by_created_at_desc l).
Proof.
  intro Hf. induction l as [|x l IH]; [reflexivity|].
  cbn [map SQL.order_by_created_at_desc fold_right].
  fold (SQL.order_by_created_at_desc (map f l)).
  fold (SQL.order_by_created_at_desc l).
  rewrite IH. now apply insert_desc_map.
Qed.

(** An update does not move a task: whatever PUT answers, the full
    listing shows the same ids with the same created_at in the same
    places. *)
Theorem update_keeps_listing_order :
  forall (db : Table) (i : Z) (body : TaskBody) (now : Z),
    map id (get_tasks (snd (put_tasks db i body now)) None None)
    = map id (get_tasks db None None) /\
    map created_at (get_tasks (snd (put_tasks db i body now)) None None)
    = map created_at (get_tasks db None None).
Proof.
  intros db i body now.
  destruct (put_tasks db i body now) as [[code data | code err] db'] eqn:E.
  2:{ pose proof (refused_unchanged db db' (Api.PUT i body now) code err E).
      subst db'. now split. }
  cbn [snd]. apply put_tasks_inv in E.
  destruct E as (_ & old & _ & _ & _ & _ & _ & ->).
  unfold get_tasks. cbn [conditions app where_ forallb rows].
  rewrite !filter_true.
  rewrite order_by_map by (intro x; now destruct (id x =? i)).
  rewrite !map_map. split; apply map_ext; intro x; now destruct (id x =? i).
Qed.

End ListingsAfter.

(** ** Search terms that differ in case, search terms made of wildcards *)

Section SearchTerms.

Lemma tolower_idem (c : ascii) : SQL.tolower (SQL.tolower c) = SQL.tolower c.
Proof.
  apply N_of_ascii_inj. rewrite (N_tolower (SQL.tolower c)), (N_tolower c).
  destruct ((65 <=? N_of_ascii c) && (N_of_ascii c <=? 90))%N eqn:E.
  - apply andb_true_iff in E. destruct E as [E1 E2]. apply N.leb_le in E1, E2.
    assert ((N_of_ascii c + 32 <=? 90)%N = false) as ->
      by (apply N.leb_gt; lia).
    now rewrite andb_false_r.
  - now rewrite E.
Qed.

(** Folding the case yields a character that is not a capital letter
    only from that character. *)
Lemma tolower_is (c d : ascii) :
  (N_of_ascii d < 65 \/ 90 < N_of_ascii d < 97 \/ 122 < N_of_ascii d)%N ->
  SQL.tolower c = d <-> c = d.
Proof.
  intro Hd. split; intro H.
  - apply N_of_ascii_inj. apply (f_equal N_of_ascii) in H.
    rewrite N_tolower in H.
    destruct ((65 <=? N_of_ascii c) && (N_of_ascii c <=? 90))%N eqn:E;
      [|exact H].
    apply andb_true_iff in E. destruct E as [E1 E2]. apply N.leb_le in E1, E2.
    lia.
  - subst d. apply N_of_ascii_inj. rewrite N_tolower.
    destruct ((65 <=? N_of_ascii c) && (N_of_ascii c <=? 90))%N eqn:E;
      [|reflexivity].
    apply andb_true_iff in E. destruct E as [E1 E2]. apply N.leb_le in E1, E2.
    lia.
Qed.

Lemma tolower_eqb_percent (c : ascii) :
  (SQL.tolower c =? "%")%char = (c =? "%")%char.
Proof.
  assert (H : SQL.tolower c = "%"%char <-> c = "%"%char)
    by (apply tolower_is; cbn; lia).
  destruct (Ascii.eqb_spec (SQL.tolower c) "%");
    destruct (Ascii.eqb_spec c "%"); tauto.
Qed.

Lemma tolower_eqb_underscore (c : ascii) :
  (SQL.tolower c =? "_")%char = (c =? "_")%char.
Proof.
  assert (H : SQL.tolower c = "_"%char <-> c = "_"%char)
    by (apply tolower_is; cbn; lia).
  destruct (Ascii.eqb_spec (SQL.tolower c) "_");
    destruct (Ascii.eqb_spec c "_"); tauto.
Qed.

(** LIKE does not see the case of the ASCII letters of its pattern. *)
Lemma like_lower_pattern (p s : string) :
  SQL.patternCompare (lower p) s = SQL.patternCompare p s.
Proof.
  revert s. induction p as [|c p IH]; intro s; [reflexivity|].
  cbn [lower]. destruct (c =? "%")%char eqn:E.
  - apply Ascii.eqb_eq in E. subst c.
    change (SQL.tolower "%") with "%"%char.
    induction s as [|d s IHs].
    + rewrite !like_percent. now rewrite IH.
    + rewrite (like_percent (lower p)), (like_percent p).
      now rewrite IH, IHs.
  - rewrite (like_char c p s E).
    rewrite like_char by (now rewrite tolower_eqb_percent).
    destruct s as [|d s]; [reflexivity|].
    now rewrite tolower_eqb_underscore, tolower_idem, IH.
Qed.

Lemma lower_append (a b : string) : lower (a ++ b) = lower a ++ lower b.
Proof.
  induction a as [|c a IH]; [reflexivity|].
  cbn [append lower]. now rewrite IH.
Qed.

Lemma truthy_lower (q : string) : JS.truthy (lower q) = JS.truthy q.
Proof.
  now destruct q.
Qed.

Lemma tolower_eqb_nul (c : ascii) :
  (SQL.tolower c =? "000")%char = (c =? "000")%char.
Proof.
  assert (H : SQL.tolower c = "000"%char <-> c = "000"%char)
    by (apply tolower_is; cbn; lia).
  destruct (Ascii.eqb_spec (SQL.tolower c) "000");
    destruct (Ascii.eqb_spec c "000"); tauto.
Qed.

Lemma cstr_lower (s : string) : SQL.cstr (lower s) = lower (SQL.cstr s).
Proof.
  induction s as [|c s IH]; [reflexivity|].
  cbn [lower SQL.cstr]. rewrite tolower_eqb_nul.
  destruct (c =? "000")%char; [reflexivity|].
  cbn [lower]. now rewrite IH.
Qed.

(** LIKE does not see the case of the ASCII letters of its pattern. *)
Lemma like_lower (p s : string) : SQL.like (lower p) s = SQL.like p s.
Proof.
  unfold SQL.like. rewrite cstr_lower. apply like_lower_pattern.
Qed.

Lemma conditions_lower (st : option string) (q : string) (x : Task) :
  where_ (conditions st (Some (lower q))) x
  = where_ (conditions st (Some q)) x.
Proof.
  unfold where_, conditions. rewrite !forallb_app. f_equal.
  rewrite truthy_lower. destruct (JS.truthy q); [|reflexivity].
  cbn [forallb].
  assert (Hp : "%" ++ lower q ++ "%" = lower ("%" ++ q ++ "%")).
  { now rewrite !lower_append. }
  now rewrite Hp, !like_lower.
Qed.

(** The search does not see the case of the ASCII letters of the search
    term: two terms that differ in that only give the same listing. *)
Theorem search_term_case :
  forall (db : Table) (st : option string) (q q' : string),
    lower q = lower q' ->
    get_tasks db st (Some q) = get_tasks db st (Some q').
Proof.
  intros db st q q' H.
  assert (Hl : forall t, get_tasks db st (Some (lower t))
                         = get_tasks db st (Some t)).
  { intro t. unfold get_tasks. f_equal. apply filter_ext.
    intro x. apply conditions_lower. }
  now rewrite <- (Hl q), <- (Hl q'), H.
Qed.

Lemma search_term_case_witness :
  lower "MiLk" = lower "milk" /\
  get_tasks milk_tasks None (Some "MiLk")
  = get_tasks milk_tasks None (Some "milk").
Proof.
  split; [reflexivity|].
  exact (search_term_case milk_tasks None "MiLk" "milk" eq_refl).
Defined.

Lemma like_percents (p s : string) :
  only_percent p = true -> p <> "" -> SQL.patternCompare p s = true.
Proof.
  revert s. induction p as [|c p IH]; intros s Hp Hne; [contradiction|].
  cbn [only_percent] in Hp. apply andb_true_iff in Hp. destruct Hp as [Hc Hp].
  apply Ascii.eqb_eq in Hc. subst c.
  destruct p as [|c' p'].
  - apply like_percent_only.
  - rewrite like_percent. rewrite IH; [reflexivity | exact Hp | discriminate].
Qed.

Lemma only_percent_append (a b : string) :
  only_percent a = true -> only_percent b = true ->
  only_percent (a ++ b) = true.
Proof.
  intros Ha Hb. induction a as [|c a IH]; [exact Hb|].
  cbn [append only_percent] in *. apply andb_true_iff in Ha.
  destruct Ha as [Hc Ha]. now rewrite Hc, IH.
Qed.

(** A search term made of [%] only does not search: the listing is the
    one without a search term. *)
Lemma only_percent_cstr (p : string) :
  only_percent p = true -> SQL.cstr p = p.
Proof.
  induction p as [|c p IH]; [reflexivity|].
  cbn [only_percent SQL.cstr]. intro H. apply andb_true_iff in H.
  destruct H as [Hc Hp]. apply Ascii.eqb_eq in Hc. subst c.
  cbn. now rewrite (IH Hp).
Qed.

Theorem search_term_of_percents :
  forall (db : Table) (st : option string) (q : string),
    only_percent q = true ->
    get_tasks db st (Some q) = get_tasks db st None.
Proof.
  intros db st q Hq. unfold get_tasks. f_equal. apply filter_ext. intro x.
  unfold where_, conditions. rewrite !forallb_app. f_equal.
  destruct (JS.truthy q); [|reflexivity]. cbn [forallb].
  assert (Hp : only_percent ("%" ++ q ++ "%") = true).
  { apply (only_percent_append "%"); [reflexivity|].
    now apply only_percent_append. }
  unfold SQL.like. rewrite (only_percent_cstr _ Hp).
  rewrite !like_percents; [reflexivity | exact Hp | discriminate
                          | exact Hp | discriminate].
Qed.

Lemma search_term_of_percents_witness :
  only_percent "%%" = true /\
  get_tasks milk_tasks (Some "pending") (Some "%%")
  = get_tasks milk_tasks (Some "pending") None.
Proof.
  split; [reflexivity|].
  exact (search_term_of_percents milk_tasks (Some "pending") "%%" eq_refl).
Defined.

End SearchTerms.

(** * Properties of the client *)

Section ClientState.

Lemma statuses_checked (s : string) :
  In s statuses -> SQL.check_status s = true /\ s <> "".
Proof.
  intro H. split.
  - rewrite <- array_includes_statuses. unfold JS.array_includes.
    apply existsb_exists. exists s. split; [exact H | apply String.eqb_refl].
  - intros ->. cbn in H. intuition discriminate.
Qed.

Lemma form_passes (f : App.TaskFormData) :
  JS.trim (App.form_title f) <> "" -> In (App.form_status f) statuses ->
  validateTask (App.body_of f) = None.
Proof.
  intros Ht Hs. apply (validateTask_passes _ (App.form_title f));
    [reflexivity | exact Ht |].
  right. now apply statuses_checked.
Qed.

(** What the server answers to the save request of a form with a title
    that is not blank and one of the three statuses, for a new task or for
    a task that is in the table. *)
Lemma save_request_accepted (db : Table) (f : App.TaskFormData)
      (editing : option Task) (now : Z) :
  JS.trim (App.form_title f) <> "" -> In (App.form_status f) statuses ->
  (forall e, editing = Some e -> exists old, SQL.get db (id e) = Some old) ->
  exists code r db',
    match editing with
    | Some task => put_tasks db (id task) (App.body_of f) now
    | None => post_tasks db (App.body_of f) now
    end = (Success code (Some r), db') /\
    (code = 200 \/ code = 201) /\
    SQL.get db' (id r) = Some r /\
    title r = JS.trim (App.form_title f) /\ status r = App.form_status f.
Proof.
  intros Ht Hs He. pose proof (form_passes f Ht Hs) as Hv.
  destruct (statuses_checked _ Hs) as [Hc Hne].
  destruct editing as [e|].
  - destruct (He e eq_refl) as [old Hg].
    assert (Ho : JS.or_else (body_status (App.body_of f)) (status old)
                 = App.form_status f) by (now apply or_else_truthy).
    assert (Hc' : SQL.check_status
                    (JS.or_else (body_status (App.body_of f)) (status old))
                  = true) by (now rewrite Ho).
    destruct (put_tasks_run db (id e) (App.body_of f) now old Hv Hg Hc')
      as [Hr Hg'].
    rewrite Hr in Hg'. cbn [snd] in Hg'. rewrite Hr.
    eexists. eexists. eexists. split; [reflexivity|].
    split; [now left|]. split.
    + apply get_Some in Hg. destruct Hg as [_ Hid].
      cbn [put_row SQL.set_row id]. rewrite Hid. exact Hg'.
    + split; [reflexivity | exact Ho].
  - rewrite (post_tasks_run db (App.body_of f) now Hv Hc).
    eexists. eexists. eexists. split; [reflexivity|].
    split; [now right|]. split; [|split; reflexivity].
    unfold SQL.get. cbn [rows post_row id]. apply find_app_fresh.
    + intros x Hx. apply next_rowid_fresh in Hx. lia.
    + reflexivity.
Qed.

(** A save that the server accepts ends with the modal closed, the form
    blank, no error, and the client holding the full listing of the table
    as the save left it, the saved task included. *)
Theorem save_accepted :
  forall (st : App.State) (db : Table) (message : option string) (now : Z),
    JS.trim (App.form_title (App.formData st)) <> "" ->
    In (App.form_status (App.formData st)) statuses ->
    (forall e, App.editingTask st = Some e ->
               exists old, SQL.get db (id e) = Some old) ->
    exists r db',
      App.saveTask App.Up App.Up message now db st
      = (App.mkState (get_tasks db' None None) false None false None
                     (App.statusFilter st) (App.searchTerm st) App.blankForm,
         db') /\
      In r (get_tasks db' None None) /\
      title r = JS.trim (App.form_title (App.formData st)) /\
      status r = App.form_status (App.formData st).
Proof.
  intros st db message now Ht Hs He.
  destruct (save_request_accepted db (App.formData st) (App.editingTask st)
              now Ht Hs He) as (code & r & db' & Hq & Hcode & Hg & Htitle & Hst).
  exists r, db'. unfold App.saveTask. rewrite Hq.
  assert (Hok : App.ok (Success code (Some r)) = true)
    by (destruct Hcode; subst code; reflexivity).
  rewrite Hok. split; [reflexivity|].
  split; [|split; assumption].
  apply get_tasks_all. apply get_Some in Hg. tauto.
Qed.

Lemma save_accepted_witness :
  exists r db',
    App.saveTask App.Up App.Up None 30 one_task
      (App.mkState (rows one_task) false None true None "all" ""
                   (App.mkForm " N " "" "pending"))
    = (App.mkState (get_tasks db' None None) false None false None
                   "all" "" App.blankForm, db') /\
    In r (get_tasks db' None None) /\ title r = "N" /\ status r = "pending".
Proof.
  apply (save_accepted
           (App.mkState (rows one_task) false None true None "all" ""
                        (App.mkForm " N " "" "pending"))
           one_task None 30).
  - discriminate.
  - now left.
  - discriminate.
Defined.

Lemma refused_by_validation (db : Table) (body : TaskBody) (now : Z) :
  blank_title body \/ bad_status body ->
  post_tasks db body now = (Failure 400 "Validation error", db) /\
  forall i, put_tasks db i body now = (Failure 400 "Validation error", db).
Proof.
  intro H.
  assert (Hv : validateTask body = Some (Failure 400 "Validation error")).
  { destruct H; [now apply validateTask_blank_title
                | now apply validateTask_bad_status]. }
  unfold post_tasks, put_tasks. rewrite Hv. now split.
Qed.

(** A save that the server refuses, because the title is blank, the
    status is none of the three, or the task being edited is no longer in
    the table, changes nothing but the error: the modal stays open with
    the form as it was, the tasks shown are the same, and the table is
    untouched.  The error shown is not the empty text. *)
Theorem save_refused :
  forall (st : App.State) (db : Table) (refetch : App.Net)
         (message : option string) (now : Z),
    blank_title (App.body_of (App.formData st)) \/
    bad_status (App.body_of (App.formData st)) \/
    (exists e, App.editingTask st = Some e /\ SQL.get db (id e) = None) ->
    App.saveTask App.Up refetch message now db st
    = (App.mkState (App.tasks st) (App.loading st)
                   (Some (JS.or_else message "Failed to save task"))
                   (App.showModal st) (App.editingTask st)
                   (App.statusFilter st) (App.searchTerm st)
                   (App.formData st),
       db) /\
    JS.or_else message "Failed to save task" <> "".
Proof.
  intros st db refetch message now H. split.
  - unfold App.saveTask.
    set (body := App.body_of (App.formData st)) in *.
    assert (Hq : exists code err,
               match App.editingTask st with
               | Some task => put_tasks db (id task) body now
               | None => post_tasks db body now
               end = (Failure code err, db) /\ (code = 400 \/ code = 404)).
    { destruct H as [H | [H | (e & He & Hg)]].
      - destruct (refused_by_validation db body now (or_introl H))
          as [Hp Hu].
        exists 400, "Validation error".
        destruct (App.editingTask st) as [e|]; split; auto.
      - destruct (refused_by_validation db body now (or_intror H))
          as [Hp Hu].
        exists 400, "Validation error".
        destruct (App.editingTask st) as [e|]; split; auto.
      - rewrite He. unfold put_tasks.
        destruct (validateTask body) as [r|] eqn:Hv.
        + apply validateTask_answer in Hv. subst r.
          exists 400, "Validation error". auto.
        + rewrite Hg. exists 404, "Not found". auto. }
    destruct Hq as (code & err & -> & Hcode).
    assert (Hok : App.ok (Failure code err) = false)
      by (destruct Hcode; subst code; reflexivity).
    now rewrite Hok.
  - unfold JS.or_else. destruct message as [m|]; [|discriminate].
    destruct (JS.truthy m) eqn:E; [now apply truthy_true | discriminate].
Qed.

Lemma save_refused_witness :
  blank_title (App.body_of (App.mkForm "   " "d" "pending")) /\
  App.saveTask App.Up App.Up (Some "Title is required and cannot be empty")
    30 one_task
    (App.mkState (rows one_task) false None true None "all" ""
                 (App.mkForm "   " "d" "pending"))
  = (App.mkState (rows one_task) false
                 (Some "Title is required and cannot be empty")
                 true None "all" "" (App.mkForm "   " "d" "pending"),
     one_task).
Proof.
  assert (H : blank_title (App.body_of (App.mkForm "   " "d" "pending")))
    by reflexivity.
  split; [exact H|].
  exact (proj1 (save_refused
                  (App.mkState (rows one_task) false None true None "all" ""
                               (App.mkForm "   " "d" "pending"))
                  one_task App.Up
                  (Some "Title is required and cannot be empty") 30
                  (or_introl H))).
Defined.

Lemma find_map_other (l : list Task) (i j : Z) (f : Task -> Task) :
  (forall x, id (f x) = id x) -> j <> i ->
  find (fun x => id x =? j) (map (fun x => if id x =? i then f x else x) l)
  = find (fun x => id x =? j) l.
Proof.
  intros Hf Hji. induction l as [|x l IH]; [reflexivity|].
  cbn [map find]. destruct (id x =? i) eqn:E.
  - rewrite Hf. apply Z.eqb_eq in E.
    assert ((id x =? j) = false) as -> by (apply Z.eqb_neq; lia).
    exact IH.
  - destruct (id x =? j); [reflexivity | exact IH].
Qed.

(** Opening a task of the table in the edit modal and saving the form as
    it is changes nothing of the task but updated_at, and nothing of any
    other task.  (The table is one that the handlers made: its titles
    and descriptions are trimmed, its statuses valid.) *)
Theorem edit_unchanged_save :
  forall (st : App.State) (db : Table) (message : option string) (now : Z)
         (t : Task),
    kept db -> SQL.get db (id t) = Some t ->
    exists st' db',
      App.saveTask App.Up App.Up message now db (App.openEditModal t st)
      = (st', db') /\
      App.showModal st' = false /\ App.error st' = None /\
      SQL.get db' (id t)
      = Some (mkTask (id t) (title t) (description t) (status t)
                     (created_at t) now) /\
      (forall j, j <> id t -> SQL.get db' j = SQL.get db j).
Proof.
  intros st db message now t [_ Hall] Hg.
  destruct (get_Some _ _ _ Hg) as [Hin _].
  rewrite Forall_forall in Hall.
  destruct (Hall t Hin) as (_ & Hc & Hne & Htt & Htd).
  assert (Hnz : status t <> "") by (intro E; rewrite E in Hc; discriminate).
  assert (Hv : validateTask (mkBody (Some (title t)) (Some (description t))
                                    (Some (status t))) = None).
  { apply (validateTask_passes _ (title t)); [reflexivity | |now right].
    now rewrite Htt. }
  assert (Hs : JS.or_else (Some (status t)) (status t) = status t)
    by (now apply or_else_truthy).
  assert (Hc' : SQL.check_status
                  (JS.or_else (body_status
                                 (mkBody (Some (title t))
                                         (Some (description t))
                                         (Some (status t))))
                              (status t)) = true).
  { cbn [body_status]. now rewrite Hs. }
  destruct (put_tasks_run db (id t) _ now t Hv Hg Hc') as [Hr Hg'].
  assert (Hrow : put_row t (mkBody (Some (title t)) (Some (description t))
                                   (Some (status t))) now
                 = mkTask (id t) (title t) (description t) (status t)
                          (created_at t) now).
  { unfold put_row, SQL.set_row, trimmed_title, trimmed_description.
    cbn [body_title body_description body_status option_map].
    rewrite Hs, Htt, Htd. f_equal.
    unfold JS.or_else. now destruct (JS.truthy (description t)). }
  unfold App.saveTask, App.openEditModal.
  cbn [App.editingTask App.formData]. unfold App.body_of.
  cbn [App.form_title App.form_description App.form_status].
  rewrite Hr in Hg'. cbn [snd] in Hg'. rewrite Hr.
  cbn [App.ok]. cbn [Z.leb Z.compare Pos.compare Pos.compare_cont andb].
  eexists. eexists. split; [reflexivity|].
  split; [reflexivity|]. split; [reflexivity|]. split.
  - rewrite Hg'. now rewrite Hrow.
  - intros j Hj. unfold SQL.get. cbn [rows].
    apply find_map_other; [reflexivity | exact Hj].
Qed.

Lemma edit_unchanged_save_witness :
  kept two_tasks /\
  exists st' db',
    App.saveTask App.Up App.Up None 40 two_tasks
      (App.openEditModal (mkTask 2 "Z" "" "pending" 11 11) App.initial)
    = (st', db') /\
    SQL.get db' 2 = Some (mkTask 2 "Z" "" "pending" 11 40) /\
    SQL.get db' 1 = SQL.get two_tasks 1.
Proof.
  assert (H : kept two_tasks).
  { split.
    - repeat constructor.
    - repeat constructor; cbn; try lia; discriminate. }
  split; [exact H|].
  destruct (edit_unchanged_save App.initial two_tasks None 40
              (mkTask 2 "Z" "" "pending" 11 11) H eq_refl)
    as (st' & db' & H1 & _ & _ & H2 & H3).
  exists st', db'. split; [exact H1|]. split; [exact H2|].
  apply H3. discriminate.
Defined.

(** After a fetch that the server answered, when the titles and
    descriptions in the table are ASCII text without U+0000, what the
    client shows under a status filter of the drop-down and a search text
    of ASCII characters other than [%], [_] and U+0000 is, task for task
    and in the same order, the listing that the server gives for that
    status and that search. *)
Theorem view_is_server_listing :
  forall (st : App.State) (db : Table),
    Forall plain_task (rows db) ->
    App.statusFilter st <> "" ->
    no_wildcard (App.searchTerm st) = true ->
    plain_text (App.searchTerm st) = true ->
    App.filteredTasks (App.fetchTasks App.Up db st)
    = get_tasks db (Some (App.statusFilter st)) (Some (App.searchTerm st)).
Proof.
  intros st db Hall Hsf Hw Ha. unfold App.filteredTasks, App.fetchTasks.
  cbn [App.tasks App.statusFilter App.searchTerm].
  now apply filteredTasks_of_listing.
Qed.

Lemma view_is_server_listing_witness :
  Forall plain_task (rows milk_tasks) /\
  "completed" <> "" /\ no_wildcard "milk" = true /\
  plain_text "milk" = true /\
  App.filteredTasks
    (App.fetchTasks App.Up milk_tasks
       (App.mkState [] true None false None "completed" "milk"
                    App.blankForm))
  = get_tasks milk_tasks (Some "completed") (Some "milk").
Proof.
  assert (H : Forall plain_task (rows milk_tasks)).
  { repeat constructor. }
  split; [exact H|].
  split; [discriminate|]. split; [reflexivity|]. split; [reflexivity|].
  apply (view_is_server_listing
           (App.mkState [] true None false None "completed" "milk"
                        App.blankForm) milk_tasks);
    [exact H | discriminate | reflexivity | reflexivity].
Defined.

(** When the server accepts a save but the fetch that follows is
    rejected, the task is in the table, yet the client ends with the modal
    closed, the form blank, the error of the fetch, and no task to show. *)
Theorem save_accepted_refetch_rejected :
  forall (st : App.State) (db : Table) (message : option string) (now : Z)
         (m : string),
    JS.trim (App.form_title (App.formData st)) <> "" ->
    In (App.form_status (App.formData st)) statuses ->
    (forall e, App.editingTask st = Some e ->
               exists old, SQL.get db (id e) = Some old) ->
    exists r db',
      App.saveTask App.Up (App.Down m) message now db st
      = (App.mkState [] false (Some m) false None
                     (App.statusFilter st) (App.searchTerm st) App.blankForm,
         db') /\
      In r (rows db') /\
      title r = JS.trim (App.form_title (App.formData st)).
Proof.
  intros st db message now m Ht Hs He.
  destruct (save_request_accepted db (App.formData st) (App.editingTask st)
              now Ht Hs He) as (code & r & db' & Hq & Hcode & Hg & Htitle & _).
  exists r, db'. unfold App.saveTask. rewrite Hq.
  assert (Hok : App.ok (Success code (Some r)) = true)
    by (destruct Hcode; subst code; reflexivity).
  rewrite Hok. split; [reflexivity|]. split; [|exact Htitle].
  apply get_Some in Hg. tauto.
Qed.

Lemma save_accepted_refetch_rejected_witness :
  exists r db',
    App.saveTask App.Up (App.Down "Failed to fetch") None 30 one_task
      (App.mkState (rows one_task) false None true None "all" ""
                   (App.mkForm "N" "" "pending"))
    = (App.mkState [] false (Some "Failed to fetch") false None
                   "all" "" App.blankForm, db') /\
    In r (rows db') /\ title r = "N".
Proof.
  apply (save_accepted_refetch_rejected
           (App.mkState (rows one_task) false None true None "all" ""
                        (App.mkForm "N" "" "pending"))
           one_task None 30 "Failed to fetch").
  - discriminate.
  - now left.
  - discriminate.
Defined.

(** A delete that the user confirms: if the task is in the table, it is
    taken out and the client ends holding the full listing of what is
    left, with no task of that id and no error; if it is not, the client
    keeps what it shows and reports the failure, and the table is
    untouched.  A delete that the user does not confirm does nothing. *)
Theorem delete_task_outcomes :
  forall (st : App.State) (db : Table) (i : Z),
    (forall r, SQL.get db i = Some r ->
       App.deleteTask true App.Up App.Up i db st
       = (App.mkState (get_tasks (SQL.delete db i) None None) false None
                      (App.showModal st) (App.editingTask st)
                      (App.statusFilter st) (App.searchTerm st)
                      (App.formData st),
          SQL.delete db i) /\
       forall x, In x (get_tasks (SQL.delete db i) None None) -> id x <> i) /\
    (SQL.get db i = None ->
       forall refetch,
         App.deleteTask true App.Up refetch i db st
         = (App.mkState (App.tasks st) (App.loading st)
                        (Some "Failed to delete task")
                        (App.showModal st) (App.editingTask st)
                        (App.statusFilter st) (App.searchTerm st)
                        (App.formData st),
            db)) /\
    (forall net refetch, App.deleteTask false net refetch i db st = (st, db)).
Proof.
  intros st db i. split; [|split].
  - intros r Hg. split.
    + unfold App.deleteTask, delete_tasks. cbn [negb]. now rewrite Hg.
    + intros x Hx. apply get_tasks_all in Hx. cbn [SQL.delete rows] in Hx.
      apply filter_In in Hx. destruct Hx as [_ Hx].
      apply negb_true_iff in Hx. now apply Z.eqb_neq.
  - intros Hg refetch. unfold App.deleteTask, delete_tasks. cbn [negb].
    now rewrite Hg.
  - reflexivity.
Qed.

Lemma delete_task_outcomes_witness :
  SQL.get two_tasks 2 = Some (mkTask 2 "Z" "" "pending" 11 11) /\
  App.deleteTask true App.Up App.Up 2 two_tasks App.initial
  = (App.mkState [mkTask 1 "X" "old" "completed" 10 10] false None false
                 None "all" "" App.blankForm,
     mkTable [mkTask 1 "X" "old" "completed" 10 10] 2).
Proof.
  split; [reflexivity|].
  exact (proj1 (proj1 (delete_task_outcomes App.initial two_tasks 2)
                  _ eq_refl)).
Defined.

End ClientState.
